(** * API-key dashboard: key classifier, file store and HTTP route handlers

    A shallow embedding of the persistence and classification core of the
    dashboard:

    - [KeyClassifier]: [getKeyType] and [maskValue] of [lib/utils/apiKeyUtils.js];
    - [Runtime]: the process and its surroundings (the JSON data file, the
      Supabase settings and table, the clock and the random sources) and the
      monad in which the asynchronous functions run;
    - [FileStore]: the JSON-file store ([getAllApiKeys], [getApiKeyById],
      [createApiKey], [updateApiKey], [deleteApiKey]);
    - [Supabase]: the contract of the query builder calls the routes make;
    - [Routes]: the handlers of [/api/keys] and [/api/keys/[id]];
    - [Regex], [ValidateRoute]: the handler of [/api/validate] and the
      patterns of its fallback;
    - [Dashboard]: the hook [useApiKeys] and what the table shows of a key.

    JavaScript strings are modelled by [string]; one character stands for one
    code unit. *)

From Stdlib Require Import String Ascii List Arith NArith Lia.
From stdpp Require Import base list strings pretty gmap.

Open Scope string_scope.
Open Scope list_scope.

(** ** Key classifier *)

Module KeyClassifier.

(** [value.startsWith(searchString)] *)
Definition startsWith (value searchString : string) : bool :=
  String.prefix searchString value.

(** [value.slice(b, e)] for indices [0 <= b <= e]. *)
Definition slice (value : string) (b e : nat) : string :=
  substring b (e - b) value.

(** [s.repeat(count)] *)
Fixpoint repeat (s : string) (count : nat) : string :=
  match count with
  | O => ""
  | S n => s +:+ repeat s n
  end.

Definition getKeyType (value : string) : string :=
  if startsWith value "prod_" then "prod"
  else if startsWith value "stg_" then "stg"
  else if startsWith value "dev_" then "dev"
  else "custom".

Definition maskValue (value : string) : string :=
  let type := getKeyType value in
  let prefix := if String.eqb type "custom" then slice value 0 4 else type +:+ "-" in
  prefix +:+ repeat "*" 30.

(** The default parameter [value = ""]: an absent argument is the empty string. *)
Definition orEmpty (value : option string) : string :=
  match value with
  | Some v => v
  | None => ""
  end.

End KeyClassifier.

Import KeyClassifier.

(** ** The process and its surroundings *)

Module Runtime.

(** A record as the routes and the file store exchange it. *)
Record ApiKey := mkApiKey {
  key_id : string;
  key_name : string;
  key_value : string;
  createdAt : string;
  updatedAt : string
}.

(** A row of the remote table [api_keys]; [updated_at] may be null. *)
Record Row := mkRow {
  row_id : string;
  row_name : string;
  row_value : string;
  created_at : string;
  updated_at : option string
}.

(** What [JSON.parse] makes of the text of [src/data/apiKeys.json]: a syntax
    error, an array of records, or some other JSON value. The text itself is
    kept up to this reading; [JSON.stringify] of an array of records is read
    back as that array. *)
Inductive JsonValue :=
| JArray (elements : list ApiKey)
| JNotArray.

Inductive FileText :=
| Malformed
| Encodes (parsed : JsonValue).

(** A source of values the program does not control: the n-th draw returns
    [upcoming n]. *)
Record Source (A : Type) := mkSource {
  upcoming : nat -> A;
  consumed : nat
}.
Arguments mkSource {A} _ _.
Arguments upcoming {A} _ _.
Arguments consumed {A} _.

Definition draw {A : Type} (s : Source A) : A * Source A :=
  (upcoming s (consumed s), mkSource (upcoming s) (S (consumed s))).

(** One reading of the clock: [new Date().toISOString()] and [Date.now()]. *)
Record Instant := mkInstant {
  iso : string;
  epochMs : N
}.

(** How one request to the remote service ends: the service runs the query;
    the query builder resolves with an error object, which is also what the
    library makes of a request that could not be sent ([QueryError
    "TypeError: fetch failed"]); or the awaited call throws, which the
    library does not do for a failed request and the catch of the handlers
    is there for. *)
Inductive Fault :=
| NoFault
| QueryError (message : string)
| Rejects (reason : string).

(** The column defaults the remote table fills in on insert. *)
Record RowDefaults := mkRowDefaults {
  default_id : string;
  default_created_at : string;
  default_updated_at : option string
}.

Record Client := mkClient {
  client_url : string;
  client_key : string
}.

Record World := mkWorld {
  (** the data file of the file store; [None] when it does not exist *)
  dataFile : option FileText;
  (** [process.env] *)
  NEXT_PUBLIC_SUPABASE_URL : option string;
  SUPABASE_SERVICE_ROLE_KEY : option string;
  NEXT_PUBLIC_SUPABASE_ANON_KEY : option string;
  (** the module variable [cached] of [supabaseServer.js] *)
  cached : option Client;
  (** the remote table [api_keys] *)
  table : list Row;
  (** [crypto.randomUUID()], [crypto.randomBytes(n).toString("hex")], the
      clock, the behaviour of the network, the defaults of the table *)
  uuids : Source string;
  randomHex : Source string;
  clock : Source Instant;
  network : Source Fault;
  columnDefaults : Source RowDefaults;
  (** [@supabase/supabase-js], which is not part of the repository: the URLs
      its [createClient] takes; for any other URL, such as one that is no
      HTTP or HTTPS URL, it throws *)
  acceptsUrl : string -> bool
}.

Definition set_dataFile (f : option FileText) (w : World) : World :=
  mkWorld f (NEXT_PUBLIC_SUPABASE_URL w) (SUPABASE_SERVICE_ROLE_KEY w)
    (NEXT_PUBLIC_SUPABASE_ANON_KEY w) (cached w) (table w) (uuids w)
    (randomHex w) (clock w) (network w) (columnDefaults w) (acceptsUrl w).

Definition set_cached (c : option Client) (w : World) : World :=
  mkWorld (dataFile w) (NEXT_PUBLIC_SUPABASE_URL w) (SUPABASE_SERVICE_ROLE_KEY w)
    (NEXT_PUBLIC_SUPABASE_ANON_KEY w) c (table w) (uuids w)
    (randomHex w) (clock w) (network w) (columnDefaults w) (acceptsUrl w).

Definition set_table (t : list Row) (w : World) : World :=
  mkWorld (dataFile w) (NEXT_PUBLIC_SUPABASE_URL w) (SUPABASE_SERVICE_ROLE_KEY w)
    (NEXT_PUBLIC_SUPABASE_ANON_KEY w) (cached w) t (uuids w)
    (randomHex w) (clock w) (network w) (columnDefaults w) (acceptsUrl w).

Definition set_uuids (s : Source string) (w : World) : World :=
  mkWorld (dataFile w) (NEXT_PUBLIC_SUPABASE_URL w) (SUPABASE_SERVICE_ROLE_KEY w)
    (NEXT_PUBLIC_SUPABASE_ANON_KEY w) (cached w) (table w) s
    (randomHex w) (clock w) (network w) (columnDefaults w) (acceptsUrl w).

Definition set_randomHex (s : Source string) (w : World) : World :=
  mkWorld (dataFile w) (NEXT_PUBLIC_SUPABASE_URL w) (SUPABASE_SERVICE_ROLE_KEY w)
    (NEXT_PUBLIC_SUPABASE_ANON_KEY w) (cached w) (table w) (uuids w)
    s (clock w) (network w) (columnDefaults w) (acceptsUrl w).

Definition set_clock (s : Source Instant) (w : World) : World :=
  mkWorld (dataFile w) (NEXT_PUBLIC_SUPABASE_URL w) (SUPABASE_SERVICE_ROLE_KEY w)
    (NEXT_PUBLIC_SUPABASE_ANON_KEY w) (cached w) (table w) (uuids w)
    (randomHex w) s (network w) (columnDefaults w) (acceptsUrl w).

Definition set_network (s : Source Fault) (w : World) : World :=
  mkWorld (dataFile w) (NEXT_PUBLIC_SUPABASE_URL w) (SUPABASE_SERVICE_ROLE_KEY w)
    (NEXT_PUBLIC_SUPABASE_ANON_KEY w) (cached w) (table w) (uuids w)
    (randomHex w) (clock w) s (columnDefaults w) (acceptsUrl w).

Definition set_columnDefaults (s : Source RowDefaults) (w : World) : World :=
  mkWorld (dataFile w) (NEXT_PUBLIC_SUPABASE_URL w) (SUPABASE_SERVICE_ROLE_KEY w)
    (NEXT_PUBLIC_SUPABASE_ANON_KEY w) (cached w) (table w) (uuids w)
    (randomHex w) (clock w) (network w) s (acceptsUrl w).

(** An asynchronous computation: it runs on the world and either returns or
    throws (a rejected promise). *)
Inductive Outcome (A : Type) :=
| Returned (a : A)
| Thrown (error : string).
Arguments Returned {A} _.
Arguments Thrown {A} _.

Definition Async (A : Type) : Type := World -> Outcome A * World.

Definition ret {A : Type} (a : A) : Async A := fun w => (Returned a, w).

Definition throw {A : Type} (error : string) : Async A :=
  fun w => (Thrown error, w).

Definition bind {A B : Type} (m : Async A) (k : A -> Async B) : Async B :=
  fun w =>
    match m w with
    | (Returned a, w') => k a w'
    | (Thrown e, w') => (Thrown e, w')
    end.

(** [try { body } catch { handler }] *)
Definition try_catch {A : Type} (body handler : Async A) : Async A :=
  fun w =>
    match body w with
    | (Returned a, w') => (Returned a, w')
    | (Thrown _, w') => handler w'
    end.

Definition lift {A : Type} (o : Outcome A) : Async A := fun w => (o, w).

Module Notations.
Notation "x <- m ;; k" := (bind m (fun x => k))
  (at level 100, m at next level, right associativity).
Notation "m ;;; k" := (bind m (fun _ => k))
  (at level 100, right associativity).
End Notations.
Import Notations.

(** [crypto.randomUUID()] *)
Definition randomUUID : Async string :=
  fun w => let (u, s) := draw (uuids w) in (Returned u, set_uuids s w).

(** [crypto.randomBytes(size).toString("hex")] *)
Definition randomBytesHex (size : nat) : Async string :=
  fun w => let (h, s) := draw (randomHex w) in (Returned h, set_randomHex s w).

(** [new Date()] *)
Definition newDate : Async Instant :=
  fun w => let (t, s) := draw (clock w) in (Returned t, set_clock s w).

(** [new Date().toISOString()] *)
Definition nowISOString : Async string :=
  t <- newDate ;; ret (iso t).

(** [Date.now().toString()] *)
Definition nowToString : Async string :=
  t <- newDate ;; ret (pretty (epochMs t)).

(** The file system, as far as the data file goes. [fs.mkdir] is called with
    [recursive: true] and succeeds whether or not the directory is there;
    [fs.access] and [fs.readFile] reject when the file does not exist;
    the disk takes every write. *)
Definition fs_mkdir : Async unit := ret tt.

Definition fs_access : Async unit :=
  fun w =>
    match dataFile w with
    | Some _ => (Returned tt, w)
    | None => (Thrown "ENOENT", w)
    end.

Definition fs_readFile : Async FileText :=
  fun w =>
    match dataFile w with
    | Some text => (Returned text, w)
    | None => (Thrown "ENOENT", w)
    end.

Definition fs_writeFile (text : FileText) : Async unit :=
  fun w => (Returned tt, set_dataFile (Some text) w).

Definition JSON_parse (text : FileText) : Outcome JsonValue :=
  match text with
  | Malformed => Thrown "SyntaxError"
  | Encodes parsed => Returned parsed
  end.

Definition JSON_stringify (apiKeys : list ApiKey) : FileText :=
  Encodes (JArray apiKeys).

End Runtime.

Import Runtime.
Import Runtime.Notations.

(** ** The file store *)

Module FileStore.

Definition generateMockKeyValue (prefix : string) : Async string :=
  random <- randomBytesHex 18 ;;
  ret (prefix +:+ "_" +:+ random).

Definition generateSeedApiKeys : Async (list ApiKey) :=
  nowIso <- nowISOString ;;
  id1 <- randomUUID ;;
  value1 <- generateMockKeyValue "prod" ;;
  id2 <- randomUUID ;;
  value2 <- generateMockKeyValue "stg" ;;
  id3 <- randomUUID ;;
  value3 <- generateMockKeyValue "dev" ;;
  ret [ mkApiKey id1 "Production Key" value1 nowIso nowIso;
        mkApiKey id2 "Staging Key" value2 nowIso nowIso;
        mkApiKey id3 "Local Dev Key" value3 nowIso nowIso ].

Definition ensureDataFileExists : Async unit :=
  try_catch
    (fs_mkdir ;;; fs_access)
    (seeds <- generateSeedApiKeys ;;
     fs_writeFile (JSON_stringify seeds)).

Definition writeAllApiKeys (apiKeys : list ApiKey) : Async unit :=
  ensureDataFileExists ;;;
  fs_writeFile (JSON_stringify apiKeys).

Definition readAllApiKeys : Async (list ApiKey) :=
  ensureDataFileExists ;;;
  fileContents <- fs_readFile ;;
  try_catch
    (parsed <- lift (JSON_parse fileContents) ;;
     match parsed with
     | JArray (k :: rest) => ret (k :: rest)
     | _ =>
         seeds <- generateSeedApiKeys ;;
         writeAllApiKeys seeds ;;;
         ret seeds
     end)
    (seeds <- generateSeedApiKeys ;;
     writeAllApiKeys seeds ;;;
     ret seeds).

Definition getAllApiKeys : Async (list ApiKey) := readAllApiKeys.

Definition getApiKeyById (apiKeyId : string) : Async (option ApiKey) :=
  all <- readAllApiKeys ;;
  ret (List.find (fun k => String.eqb (key_id k) apiKeyId) all).

(** [name] and [value] are strings; nothing here looks at them. *)
Definition createApiKey (name value : string) : Async ApiKey :=
  all <- readAllApiKeys ;;
  nowIso <- nowISOString ;;
  newId <- randomUUID ;;
  let newKey := mkApiKey newId name value nowIso nowIso in
  let all := all ++ [newKey] in
  writeAllApiKeys all ;;;
  ret newKey.

(** [all.findIndex(pred)]; [None] stands for -1. *)
Fixpoint findIndex {A : Type} (pred : A -> bool) (l : list A) : option nat :=
  match l with
  | [] => None
  | x :: rest => if pred x then Some 0 else option_map S (findIndex pred rest)
  end.

(** The fields [name] and [value] of the second argument are strings or are
    not given: [None] is a field for which [typeof field === "string"] fails. *)
Definition updateApiKey (apiKeyId : string) (name value : option string)
  : Async (option ApiKey) :=
  all <- readAllApiKeys ;;
  match findIndex (fun k => String.eqb (key_id k) apiKeyId) all with
  | None => ret None
  | Some index =>
      match all !! index with
      | None => throw "TypeError" (* [all[index]] past the end is undefined *)
      | Some existing =>
          now <- nowISOString ;;
          let updated :=
            mkApiKey (key_id existing)
              (match name with Some n => n | None => key_name existing end)
              (match value with Some v => v | None => key_value existing end)
              (createdAt existing)
              now in
          let all := <[index := updated]> all in
          writeAllApiKeys all ;;;
          ret (Some updated)
      end
  end.

Definition deleteApiKey (apiKeyId : string) : Async bool :=
  all <- readAllApiKeys ;;
  let next := List.filter (fun k => negb (String.eqb (key_id k) apiKeyId)) all in
  if Nat.eqb (List.length next) (List.length all) then ret false
  else
    writeAllApiKeys next ;;;
    ret true.

End FileStore.

Import FileStore.

(** ** The Supabase client

    The routes talk to the remote table through the query builder of
    [@supabase/supabase-js]. The library is not part of the repository; what
    follows is the documented contract of the calls the routes make:
    - [createClient] throws for a URL it does not take, such as one that is
      no HTTP or HTTPS URL; which URLs it takes is left to the world
      ([acceptsUrl]);
    - the query builder does not throw when a request fails: it resolves
      with an error object;
    - [.single()] answers with the row when the request yields exactly one
      row, and with an error (code PGRST116) when it yields none or several;
    - [.maybeSingle()] answers with the row, with null data and no error when
      there is no row, and with an error when there are several;
    - [.delete({ count: "exact" })] reports the number of rows it removed;
    - [.order("updated_at", { ascending: false })] sorts by [updated_at]
      descending, nulls first;
    - [id] is the primary key of [api_keys]; the table fills in [id],
      [created_at] and [updated_at] of an inserted row from its defaults. *)

Module Supabase.

Record Reply (D : Type) := mkReply {
  data : option D;
  error : option string;
  count : option nat
}.
Arguments mkReply {D} _ _ _.
Arguments data {D} _.
Arguments error {D} _.
Arguments count {D} _.

(** A string of [process.env] or of a JSON body is truthy when it is there
    and is not empty. *)
Definition truthy (s : option string) : bool :=
  match s with
  | Some s => negb (String.eqb s "")
  | None => false
  end.

(** [a || b] *)
Definition or_else (a b : option string) : option string :=
  if truthy a then a else b.

(** [createClient(url, key, options)]: the library throws for a URL it does
    not take. *)
Definition createClient (url key : string) : Async Client :=
  fun w =>
    if acceptsUrl w url then (Returned (mkClient url key), w)
    else (Thrown "Invalid supabaseUrl", w).

Definition getSupabaseServerClient : Async (option Client) :=
  fun w =>
    match cached w with
    | Some c => (Returned (Some c), w)
    | None =>
        let url := NEXT_PUBLIC_SUPABASE_URL w in
        let key := or_else (SUPABASE_SERVICE_ROLE_KEY w)
                           (NEXT_PUBLIC_SUPABASE_ANON_KEY w) in
        if negb (truthy url) || negb (truthy key) then (Returned None, w)
        else
          try_catch
            (c <- createClient (orEmpty url) (orEmpty key) ;;
             fun w => (Returned (Some c), set_cached (Some c) w))
            (ret None) w
    end.

Definition PGRST116 : string :=
  "JSON object requested, multiple (or no) rows returned".

Definition single (rows : list Row) : Reply Row :=
  match rows with
  | [r] => mkReply (Some r) None None
  | _ => mkReply None (Some PGRST116) None
  end.

Definition maybeSingle (rows : list Row) : Reply Row :=
  match rows with
  | [] => mkReply None None None
  | [r] => mkReply (Some r) None None
  | _ => mkReply None (Some PGRST116) None
  end.

(** [.eq("id", id)] *)
Definition eq_id (id : string) (r : Row) : bool := String.eqb (row_id r) id.

(** One request to the service, awaited: the call throws, the query builder
    resolves with an error, or the service runs the query on the table. *)
Definition request {D : Type} (query : World -> Reply D * World)
  : Async (Reply D) :=
  fun w =>
    let (fault, s) := draw (network w) in
    let w := set_network s w in
    match fault with
    | Rejects reason => (Thrown reason, w)
    | QueryError message => (Returned (mkReply None (Some message) None), w)
    | NoFault => let (reply, w') := query w in (Returned reply, w')
    end.

(** [updated_at] descending, nulls first. *)
Definition before (a b : Row) : bool :=
  match updated_at a, updated_at b with
  | None, _ => true
  | Some _, None => false
  | Some x, Some y => String.leb y x
  end.

Fixpoint place (r : Row) (sorted : list Row) : list Row :=
  match sorted with
  | [] => [r]
  | x :: rest => if before x r then x :: place r rest else r :: x :: rest
  end.

Definition order_updated_at_desc (rows : list Row) : list Row :=
  fold_left (fun sorted r => place r sorted) rows [].

(** [.select(...).order("updated_at", { ascending: false })] *)
Definition select_ordered : Async (Reply (list Row)) :=
  request (fun w =>
    (mkReply (Some (order_updated_at_desc (table w))) None None, w)).

(** [.select(...).eq("id", id).maybeSingle()] *)
Definition select_eq_maybeSingle (id : string) : Async (Reply Row) :=
  request (fun w => (maybeSingle (List.filter (eq_id id) (table w)), w)).

(** [.insert({ name, value }).select(...).single()] *)
Definition insert_select_single (name value : string) : Async (Reply Row) :=
  request (fun w =>
    let (d, s) := draw (columnDefaults w) in
    let w := set_columnDefaults s w in
    let row := mkRow (default_id d) name value
                 (default_created_at d) (default_updated_at d) in
    if existsb (eq_id (default_id d)) (table w)
    then (mkReply None (Some "duplicate key value violates unique constraint") None, w)
    else (single [row], set_table (table w ++ [row]) w)).

(** The object [updates] of PUT. *)
Record Updates := mkUpdates {
  set_updated_at : string;
  set_name : option string;
  set_value : option string
}.

Definition apply_updates (u : Updates) (r : Row) : Row :=
  mkRow (row_id r)
    (match set_name u with Some n => n | None => row_name r end)
    (match set_value u with Some v => v | None => row_value r end)
    (created_at r)
    (Some (set_updated_at u)).

(** [.update(updates).eq("id", id).select(...).single()]; the change is kept
    only when the request succeeds. *)
Definition update_eq_select_single (u : Updates) (id : string)
  : Async (Reply Row) :=
  request (fun w =>
    let changed := List.map (apply_updates u) (List.filter (eq_id id) (table w)) in
    match changed with
    | [_] =>
        (single changed,
         set_table (List.map (fun r => if eq_id id r then apply_updates u r else r)
                      (table w)) w)
    | _ => (single changed, w)
    end).

(** [.delete({ count: "exact" }).eq("id", id)] *)
Definition delete_eq (id : string) : Async (Reply unit) :=
  request (fun w =>
    let kept := List.filter (fun r => negb (eq_id id r)) (table w) in
    (mkReply None None (Some (List.length (table w) - List.length kept)),
     set_table kept w)).

End Supabase.

Import Supabase.

(** ** The route handlers *)

Module Routes.

(** The body of a [NextResponse.json(body, { status })]. *)
Inductive Json :=
| Message (message : string)
| KeyList (keys : list ApiKey)
| Key (key : ApiKey)
| SuccessTrue.

Record Response := mkResponse {
  body : Json;
  status : nat
}.

Definition NextResponse_json (body : Json) (status : nat) : Async Response :=
  ret (mkResponse body status).

(** The body of a request as [request.json()] reads it: not JSON at all,
    the JSON value null, or an object whose fields [name] and [value] are
    strings or are missing. Bodies in which one of these fields holds
    another JSON value (a number, a boolean, null, an array, an object) are
    not modelled. *)
Inductive RequestBody :=
| NotJson
| JsonNull
| JsonObject (name value : option string).

Definition request_json (request : RequestBody) : Async RequestBody :=
  match request with
  | NotJson => throw "SyntaxError"
  | parsed => ret parsed
  end.

(** The mapping of a row onto the record of the response. *)
Definition toApiKey (r : Row) : ApiKey :=
  mkApiKey (row_id r) (row_name r) (row_value r) (created_at r)
    (match updated_at r with Some u => u | None => created_at r end).

(** [api/keys/route.js] *)
Module Keys.

Definition mockApiKeys : list ApiKey :=
  [ mkApiKey "1" "OpenAI API Key" "sk-..."
      "2024-01-15T10:00:00Z" "2024-01-15T10:00:00Z";
    mkApiKey "2" "Anthropic API Key" "sk-ant-..."
      "2024-01-14T15:30:00Z" "2024-01-14T15:30:00Z";
    mkApiKey "3" "Google AI API Key" "AIza..."
      "2024-01-13T09:15:00Z" "2024-01-13T09:15:00Z" ].

Definition GET : Async Response :=
  try_catch
    (supabase <- getSupabaseServerClient ;;
     match supabase with
     | Some _ =>
         reply <- select_ordered ;;
         match error reply with
         | Some _ => NextResponse_json (KeyList mockApiKeys) 200
         | None =>
             NextResponse_json
               (KeyList (List.map toApiKey
                           (match data reply with Some rows => rows | None => [] end)))
               200
         end
     | None => NextResponse_json (KeyList mockApiKeys) 200
     end)
    (NextResponse_json (KeyList mockApiKeys) 200).

Definition POST (request : RequestBody) : Async Response :=
  try_catch
    (parsed <- request_json request ;;
     match parsed with
     | JsonObject name value =>
         if negb (truthy name) || negb (truthy value)
         then NextResponse_json (Message "'name' and 'value' are required") 400
         else
           let name := orEmpty name in
           let value := orEmpty value in
           supabase <- getSupabaseServerClient ;;
           match supabase with
           | Some _ =>
               reply <- insert_select_single name value ;;
               match error reply, data reply with
               | Some message, _ => NextResponse_json (Message message) 500
               | None, Some row => NextResponse_json (Key (toApiKey row)) 201
               | None, None => throw "TypeError"
               end
           | None =>
               id <- nowToString ;;
               created <- nowISOString ;;
               updated <- nowISOString ;;
               NextResponse_json
                 (Key (mkApiKey id name (substring 0 10 value +:+ "...")
                         created updated))
                 201
           end
     | _ => throw "TypeError"
     end)
    (NextResponse_json (Message "Internal server error") 500).

End Keys.

(** [api/keys/[id]/route.js]; [id] is [params.id]. *)
Module KeyById.

Definition GET (id : string) : Async Response :=
  try_catch
    (supabase <- getSupabaseServerClient ;;
     match supabase with
     | None => NextResponse_json (Message "API not configured") 503
     | Some _ =>
         reply <- select_eq_maybeSingle id ;;
         match error reply, data reply with
         | Some message, _ => NextResponse_json (Message message) 500
         | None, None => NextResponse_json (Message "Not found") 404
         | None, Some row => NextResponse_json (Key (toApiKey row)) 200
         end
     end)
    (NextResponse_json (Message "Internal server error") 500).

Definition PUT (request : RequestBody) (id : string) : Async Response :=
  try_catch
    (parsed <- request_json request ;;
     now <- nowISOString ;;
     let updates :=
       match parsed with
       | JsonObject name value => mkUpdates now name value
       | _ => mkUpdates now None None
       end in
     supabase <- getSupabaseServerClient ;;
     match supabase with
     | None => NextResponse_json (Message "API not configured") 503
     | Some _ =>
         reply <- update_eq_select_single updates id ;;
         match error reply, data reply with
         | Some message, _ => NextResponse_json (Message message) 500
         | None, None => NextResponse_json (Message "Not found") 404
         | None, Some row => NextResponse_json (Key (toApiKey row)) 200
         end
     end)
    (NextResponse_json (Message "Internal server error") 500).

Definition DELETE (id : string) : Async Response :=
  try_catch
    (supabase <- getSupabaseServerClient ;;
     match supabase with
     | None => NextResponse_json (Message "API not configured") 503
     | Some _ =>
         reply <- delete_eq id ;;
         match error reply, count reply with
         | Some message, _ => NextResponse_json (Message message) 500
         | None, None | None, Some 0 => NextResponse_json (Message "Not found") 404
         | None, Some _ => NextResponse_json SuccessTrue 200
         end
     end)
    (NextResponse_json (Message "Internal server error") 500).

End KeyById.

End Routes.

Import Routes.

(** ** Vocabulary of the statements *)

(** The array the data file holds; empty when the file is missing or does not
    hold an array. *)
Definition stored (w : World) : list ApiKey :=
  match dataFile w with
  | Some (Encodes (JArray keys)) => keys
  | _ => []
  end.

(** The states from which the file store starts afresh: no file, a file that
    is not JSON, a JSON value that is no array, the empty array. *)
Definition needsSeed (w : World) : bool :=
  match dataFile w with
  | Some (Encodes (JArray (_ :: _))) => false
  | _ => true
  end.

(** The seeds [generateSeedApiKeys] makes in [w], and the world once they are
    written to the data file. *)
Definition seedsOf (w : World) : list ApiKey :=
  match generateSeedApiKeys w with
  | (Returned seeds, _) => seeds
  | (Thrown _, _) => []
  end.

Definition afterSeeding (w : World) : World :=
  set_dataFile (Some (JSON_stringify (seedsOf w))) (snd (generateSeedApiKeys w)).

(** What a read of the store answers in [w], and the world it leaves. *)
Definition listing (w : World) : list ApiKey :=
  if needsSeed w then seedsOf w else stored w.

Definition settled (w : World) : World :=
  if needsSeed w then afterSeeding w else w.

(** The next draws of the sources. *)
Definition nextUUID (w : World) : string := upcoming (uuids w) (consumed (uuids w)).

Definition nextHex (w : World) (k : nat) : string :=
  upcoming (randomHex w) (k + consumed (randomHex w)).

Definition uuidAfter (w : World) (k : nat) : string :=
  upcoming (uuids w) (k + consumed (uuids w)).

Definition nextInstant (w : World) : Instant :=
  upcoming (clock w) (consumed (clock w)).

Definition instantAfter (w : World) (k : nat) : Instant :=
  upcoming (clock w) (k + consumed (clock w)).

Definition nextFault (w : World) : Fault :=
  upcoming (network w) (consumed (network w)).

Definition nextDefaults (w : World) : RowDefaults :=
  upcoming (columnDefaults w) (consumed (columnDefaults w)).

(** A client can be had: one is cached, or the settings name a URL and a
    key and [createClient] takes the URL. *)
Definition configured (w : World) : bool :=
  match cached w with
  | Some _ => true
  | None =>
      truthy (NEXT_PUBLIC_SUPABASE_URL w) &&
      truthy (or_else (SUPABASE_SERVICE_ROLE_KEY w) (NEXT_PUBLIC_SUPABASE_ANON_KEY w)) &&
      acceptsUrl w (orEmpty (NEXT_PUBLIC_SUPABASE_URL w))
  end.

Definition hasId (id : string) (k : ApiKey) : bool := String.eqb (key_id k) id.

(** The record [createApiKey] makes in [w]: the store is read first, then the
    clock, then the UUID source. *)
Definition created (name value : string) (w : World) : ApiKey :=
  mkApiKey (nextUUID (settled w)) name value
    (iso (nextInstant (settled w))) (iso (nextInstant (settled w))).

(** The client [getSupabaseServerClient] answers with when it can, and the
    world once it is cached. *)
Definition theClient (w : World) : Client :=
  match cached w with
  | Some c => c
  | None =>
      mkClient (orEmpty (NEXT_PUBLIC_SUPABASE_URL w))
        (orEmpty (or_else (SUPABASE_SERVICE_ROLE_KEY w)
                          (NEXT_PUBLIC_SUPABASE_ANON_KEY w)))
  end.

Definition connected (w : World) : World :=
  if configured w then set_cached (Some (theClient w)) w else w.

(** The fault of the k-th request from now. *)
Definition faultAfter (w : World) (k : nat) : Fault :=
  upcoming (network w) (k + consumed (network w)).

(** The row an insert makes in [w]. *)
Definition insertedRow (name value : string) (w : World) : Row :=
  mkRow (default_id (nextDefaults w)) name value
    (default_created_at (nextDefaults w)) (default_updated_at (nextDefaults w)).

Definition hasRow (id : string) (w : World) : bool := existsb (eq_id id) (table w).

(** The record POST makes up when there is no client. *)
Definition madeUp (name value : string) (w : World) : ApiKey :=
  mkApiKey (pretty (epochMs (instantAfter w 0))) name
    (substring 0 10 value +:+ "...")
    (iso (instantAfter w 1)) (iso (instantAfter w 2)).

(** Sample worlds. *)
Module Samples.

Definition sources (f : option FileText) (url anon : option string)
    (rows : list Row) (fault : Fault) : World :=
  mkWorld f url None anon None rows
    (mkSource (fun n => "uuid-" +:+ pretty n) 0)
    (mkSource (fun n => "hex" +:+ pretty n) 0)
    (mkSource (fun n => mkInstant ("2025-01-01T00:00:0" +:+ pretty n +:+ "Z")
                                  (1735689600000 + 1000 * N.of_nat n)) 0)
    (mkSource (fun _ => fault) 0)
    (mkSource (fun n => mkRowDefaults ("row-" +:+ pretty n)
                                      ("2025-01-01T00:00:0" +:+ pretty n +:+ "Z")
                                      None) 0)
    (String.eqb "https://project.supabase.co").

(** No data file and no Supabase settings. *)
Definition bare : World := sources None None None [] NoFault.

(** A data file with one record. *)
Definition oneKey : ApiKey :=
  mkApiKey "k1" "K1" "prod_abc" "2024-12-31T00:00:00Z" "2024-12-31T00:00:00Z".

Definition withFile : World :=
  sources (Some (JSON_stringify [oneKey])) None None [] NoFault.

(** Supabase settings, and a table that is empty or holds one row. *)
Definition remoteEmpty : World :=
  sources None (Some "https://project.supabase.co") (Some "anon-key") [] NoFault.

Definition oneRow : Row :=
  mkRow "r1" "K1" "prod_abc" "2024-12-31T00:00:00Z" None.

Definition remoteOne : World :=
  sources None (Some "https://project.supabase.co") (Some "anon-key") [oneRow] NoFault.

(** Settings whose URL [createClient] does not take. *)
Definition unusableUrl : World :=
  sources None (Some "not a url") (Some "anon-key") [oneRow] NoFault.

End Samples.

(** A change of [process.env]. *)
Definition set_env (url serviceKey anonKey : option string) (w : World) : World :=
  mkWorld (dataFile w) url serviceKey anonKey (cached w) (table w) (uuids w)
    (randomHex w) (clock w) (network w) (columnDefaults w) (acceptsUrl w).

(** ** Regular expressions

    The patterns of [validateApiKeyPattern] are written [/^...$/]: [test]
    asks whether the whole string is in the language of the pattern. *)

Module Regex.

Inductive regex :=
| Never
| Empty
| Class (accepts : ascii -> bool)
| Then (first second : regex)
| Or (left right : regex)
| Star (body : regex).

Fixpoint nullable (r : regex) : bool :=
  match r with
  | Never => false
  | Empty => true
  | Class _ => false
  | Then a b => nullable a && nullable b
  | Or a b => nullable a || nullable b
  | Star _ => true
  end.

(** What is left of [r] once the character [c] has been read. *)
Fixpoint derive (c : ascii) (r : regex) : regex :=
  match r with
  | Never => Never
  | Empty => Never
  | Class accepts => if accepts c then Empty else Never
  | Then a b =>
      if nullable a then Or (Then (derive c a) b) (derive c b)
      else Then (derive c a) b
  | Or a b => Or (derive c a) (derive c b)
  | Star a => Then (derive c a) (Star a)
  end.

(** [/^r$/.test(s)] *)
Fixpoint test (r : regex) (s : string) : bool :=
  match s with
  | EmptyString => nullable r
  | String c rest => test (derive c r) rest
  end.

(** [r{n}], [r+], [r{n,}] and a sequence of patterns. *)
Fixpoint repeated (n : nat) (r : regex) : regex :=
  match n with
  | O => Empty
  | S n => Then r (repeated n r)
  end.

Definition oneOrMore (r : regex) : regex := Then r (Star r).

Definition atLeast (n : nat) (r : regex) : regex := Then (repeated n r) (Star r).

Definition sequence (rs : list regex) : regex := fold_right Then Empty rs.

(** The language of a pattern. *)
Inductive Matches : regex -> string -> Prop :=
| MatchEmpty : Matches Empty ""
| MatchClass accepts c : accepts c = true -> Matches (Class accepts) (String c "")
| MatchThen a b s t : Matches a s -> Matches b t -> Matches (Then a b) (s +:+ t)
| MatchLeft a b s : Matches a s -> Matches (Or a b) s
| MatchRight a b s : Matches b s -> Matches (Or a b) s
| MatchNone a : Matches (Star a) ""
| MatchMore a s t : Matches a s -> Matches (Star a) t -> Matches (Star a) (s +:+ t).

(** Every class of the pattern accepts only characters of [alphabet]. *)
Fixpoint within (alphabet : ascii -> bool) (r : regex) : Prop :=
  match r with
  | Class accepts => forall c, accepts c = true -> alphabet c = true
  | Then a b | Or a b => within alphabet a /\ within alphabet b
  | Star a => within alphabet a
  | Never | Empty => True
  end.

(** [s] is made of characters of [alphabet]. *)
Fixpoint allOf (alphabet : ascii -> bool) (s : string) : bool :=
  match s with
  | EmptyString => true
  | String c rest => alphabet c && allOf alphabet rest
  end.

End Regex.

Import Regex.

(** ** The validation route: [api/validate/route.js] *)

Module ValidateRoute.

(** Character classes. *)
Definition between (lo hi c : ascii) : bool :=
  Nat.leb (nat_of_ascii lo) (nat_of_ascii c) && Nat.leb (nat_of_ascii c) (nat_of_ascii hi).

Definition exactly (x c : ascii) : bool := Ascii.eqb x c.

Definition oneOf (classes : list (ascii -> bool)) (c : ascii) : bool :=
  existsb (fun accepts => accepts c) classes.

(** The flag [i]: a character is accepted when the class accepts it in
    either case; only the letters a-z and A-Z have another case here. *)
Definition toUpperCase (c : ascii) : ascii :=
  if between "a" "z" c then ascii_of_nat (nat_of_ascii c - 32) else c.

Definition toLowerCase (c : ascii) : ascii :=
  if between "A" "Z" c then ascii_of_nat (nat_of_ascii c + 32) else c.

Definition ignoreCase (accepts : ascii -> bool) (c : ascii) : bool :=
  accepts c || accepts (toUpperCase c) || accepts (toLowerCase c).

(** [[0-9a-f]], [[a-zA-Z0-9]] and [[A-Za-z0-9-_]] *)
Definition hexDigit : ascii -> bool := oneOf [between "0" "9"; between "a" "f"].

Definition alphanumeric : ascii -> bool :=
  oneOf [between "a" "z"; between "A" "Z"; between "0" "9"].

Definition wordOrDash : ascii -> bool :=
  oneOf [between "A" "Z"; between "a" "z"; between "0" "9"; exactly "-"; exactly "_"].

(** [/^[0-9a-f]{8}-[0-9a-f]{4}-[1-5][0-9a-f]{3}-[89ab][0-9a-f]{3}-[0-9a-f]{12}$/i] *)
Definition uuidPattern : regex :=
  sequence
    [ repeated 8 (Class (ignoreCase hexDigit)); Class (ignoreCase (exactly "-"));
      repeated 4 (Class (ignoreCase hexDigit)); Class (ignoreCase (exactly "-"));
      Class (ignoreCase (between "1" "5"));
      repeated 3 (Class (ignoreCase hexDigit)); Class (ignoreCase (exactly "-"));
      Class (ignoreCase (oneOf [exactly "8"; exactly "9"; exactly "a"; exactly "b"]));
      repeated 3 (Class (ignoreCase hexDigit)); Class (ignoreCase (exactly "-"));
      repeated 12 (Class (ignoreCase hexDigit)) ].

(** [/^sk-[a-zA-Z0-9]{32,}$/] *)
Definition apiKeyPattern : regex :=
  sequence
    [ Class (exactly "s"); Class (exactly "k"); Class (exactly "-");
      atLeast 32 (Class alphanumeric) ].

(** [/^[A-Za-z0-9-_]+\.[A-Za-z0-9-_]+\.[A-Za-z0-9-_]*$/] *)
Definition jwtPattern : regex :=
  sequence
    [ oneOrMore (Class wordOrDash); Class (exactly ".");
      oneOrMore (Class wordOrDash); Class (exactly ".");
      Star (Class wordOrDash) ].

Definition validateApiKeyPattern (apiKey : string) : bool :=
  test uuidPattern apiKey ||
  test apiKeyPattern apiKey ||
  test jwtPattern apiKey ||
  (Nat.leb 20 (String.length apiKey) && test (oneOrMore (Class wordOrDash)) apiKey).

(** [apiKey.trim()]: the white space and line terminators among the code
    units below 256 are 9 to 13, 32 and 160. *)
Definition isWhiteSpace : ascii -> bool :=
  oneOf [between "009" "013"; exactly " "; exactly "160"].

Fixpoint trimStart (s : string) : string :=
  match s with
  | EmptyString => EmptyString
  | String c rest => if isWhiteSpace c then trimStart rest else s
  end.

Fixpoint trimEnd (s : string) : string :=
  match s with
  | EmptyString => EmptyString
  | String c rest =>
      match trimEnd rest with
      | EmptyString => if isWhiteSpace c then EmptyString else String c EmptyString
      | kept => String c kept
      end
  end.

Definition trim (s : string) : string := trimEnd (trimStart s).

(** The body of the request as [request.json()] reads it: not JSON, the
    JSON value null, or an object whose field [apiKey] is a string ([None]
    when it is missing or is no string). *)
Inductive Body :=
| BodyNotJson
| BodyNull
| BodyWith (apiKey : option string).

Definition request_json (request : Body) : Async Body :=
  match request with
  | BodyNotJson => throw "SyntaxError"
  | parsed => ret parsed
  end.

(** An answer [new Response(JSON.stringify({ error, message, status,
    keyName }), { status })]; a field left out is [None]. *)
Record Verdict := mkVerdict {
  httpStatus : nat;
  errorField : option string;
  messageField : option string;
  statusField : option string;
  keyName : option string
}.

Definition invalidFormat : Verdict :=
  mkVerdict 400 (Some "Invalid API key format") None None None.

Definition valid (name : option string) : Verdict :=
  mkVerdict 200 None (Some "Valid API Key, /protected can be accessed")
    (Some "success") name.

Definition invalid : Verdict :=
  mkVerdict 401 (Some "Invalid API Key") None (Some "error") None.

Definition databaseError : Verdict :=
  mkVerdict 500 (Some "Database error occurred") None (Some "error") None.

Definition invalidRequest : Verdict :=
  mkVerdict 400 (Some "Invalid request format") None (Some "error") None.

Definition methodNotAllowed : Verdict :=
  mkVerdict 405 (Some "Method not allowed") None None None.

(** [.select("id, name, value").eq("value", value).maybeSingle()] *)
Definition select_eq_value_maybeSingle (value : string) : Async (Reply Row) :=
  request (fun w =>
    (maybeSingle (List.filter (fun r => String.eqb (row_value r) value) (table w)),
     w)).

Definition POST (request : Body) : Async Verdict :=
  try_catch
    (parsed <- request_json request ;;
     match parsed with
     | BodyWith apiKey =>
         if negb (truthy apiKey) ||
            Nat.eqb (String.length (trim (orEmpty apiKey))) 0
         then ret invalidFormat
         else
           let trimmedApiKey := trim (orEmpty apiKey) in
           supabase <- getSupabaseServerClient ;;
           match supabase with
           | None =>
               if validateApiKeyPattern trimmedApiKey
               then ret (valid None)
               else ret invalid
           | Some _ =>
               reply <- select_eq_value_maybeSingle trimmedApiKey ;;
               match error reply, data reply with
               | Some _, _ => ret databaseError
               | None, Some row =>
                   if String.eqb (row_value row) trimmedApiKey
                   then ret (valid (Some (row_name row)))
                   else ret invalid
               | None, None => ret invalid
               end
           end
     | _ => throw "TypeError"
     end)
    (ret invalidRequest).

Definition GET : Async Verdict := ret methodNotAllowed.
Definition PUT : Async Verdict := ret methodNotAllowed.
Definition DELETE : Async Verdict := ret methodNotAllowed.

End ValidateRoute.

(** More sample worlds. *)
Module MoreSamples.

(** The random source gives what [randomBytes(18).toString("hex")] gives: 36
    hexadecimal digits. *)
Definition hexSources : World :=
  mkWorld None None None None None []
    (mkSource (fun n => "uuid-" +:+ pretty n) 0)
    (mkSource (fun n => "5f0c9a3e7b1d48264e9a0b7c3d5e6f8a1b" +:+ pretty (n mod 10)
                        +:+ "d") 0)
    (mkSource (fun n => mkInstant "2025-01-01T00:00:00Z" 1735689600000) 0)
    (mkSource (fun _ => NoFault) 0)
    (mkSource (fun n => mkRowDefaults ("row-" +:+ pretty n) "2025-01-01T00:00:00Z" None) 0)
    (String.eqb "https://project.supabase.co").

(** A service that answers every request with the same fault. *)
Definition failing (fault : Fault) : World :=
  Samples.sources None (Some "https://project.supabase.co") (Some "anon-key")
    [Samples.oneRow] fault.

End MoreSamples.

(** ** The dashboard: [useApiKeys] and the table *)

Module Dashboard.

Record Form := mkForm {
  form_name : string;
  form_value : string
}.

(** The state of the hook [useApiKeys]. [apiKeys] is what [setApiKeys] was
    given last, the body of an answer of the list route. *)
Record HookState := mkHookState {
  apiKeys : Json;
  loading : bool;
  error : string;
  form : Form;
  editingId : option string;
  showForm : bool;
  revealedIds : gmap string bool;
  toastMessage : string;
  toastType : string
}.

Definition initialState : HookState :=
  mkHookState (KeyList []) false "" (mkForm "" "") None false ∅ "" "success".

Definition setApiKeys (x : Json) (s : HookState) : HookState :=
  mkHookState x (loading s) (error s) (form s) (editingId s) (showForm s)
    (revealedIds s) (toastMessage s) (toastType s).

Definition setLoading (x : bool) (s : HookState) : HookState :=
  mkHookState (apiKeys s) x (error s) (form s) (editingId s) (showForm s)
    (revealedIds s) (toastMessage s) (toastType s).

Definition setError (x : string) (s : HookState) : HookState :=
  mkHookState (apiKeys s) (loading s) x (form s) (editingId s) (showForm s)
    (revealedIds s) (toastMessage s) (toastType s).

Definition setForm (x : Form) (s : HookState) : HookState :=
  mkHookState (apiKeys s) (loading s) (error s) x (editingId s) (showForm s)
    (revealedIds s) (toastMessage s) (toastType s).

Definition setEditingId (x : option string) (s : HookState) : HookState :=
  mkHookState (apiKeys s) (loading s) (error s) (form s) x (showForm s)
    (revealedIds s) (toastMessage s) (toastType s).

Definition setShowForm (x : bool) (s : HookState) : HookState :=
  mkHookState (apiKeys s) (loading s) (error s) (form s) (editingId s) x
    (revealedIds s) (toastMessage s) (toastType s).

Definition setRevealedIds (x : gmap string bool) (s : HookState) : HookState :=
  mkHookState (apiKeys s) (loading s) (error s) (form s) (editingId s) (showForm s)
    x (toastMessage s) (toastType s).

Definition setToastMessage (x : string) (s : HookState) : HookState :=
  mkHookState (apiKeys s) (loading s) (error s) (form s) (editingId s) (showForm s)
    (revealedIds s) x (toastType s).

Definition setToastType (x : string) (s : HookState) : HookState :=
  mkHookState (apiKeys s) (loading s) (error s) (form s) (editingId s) (showForm s)
    (revealedIds s) (toastMessage s) x.

(** [res.ok]: the status is in the range 200-299. *)
Definition ok (res : Response) : bool :=
  Nat.leb 200 (status res) && Nat.leb (status res) 299.

(** [data?.message || otherwise] *)
Definition messageOr (data : Json) (otherwise : string) : string :=
  match data with
  | Message m => if String.eqb m "" then otherwise else m
  | _ => otherwise
  end.

(** [e.message || "Unexpected error"] *)
Definition messageOfError (message : string) : string :=
  if String.eqb message "" then "Unexpected error" else message.

(** [fetch] of a route of this server, then [res.json()]: the handler runs;
    a handler that throws is a request that fails. The answer is checked as
    the hook does: [if (!res.ok) throw new Error(data?.message || failed)]. *)
Definition fetchChecked (route : Async Response) (failed : string)
  : Async Response :=
  res <- route ;;
  if ok res then ret res else throw (messageOr (body res) failed).

Definition refresh (s : HookState) (w : World) : HookState * World :=
  let s := setLoading true s in
  let s := setError "" s in
  let (s, w) :=
    match fetchChecked Keys.GET "Failed to load" w with
    | (Returned res, w') => (setApiKeys (body res) s, w')
    | (Thrown e, w') => (setError (messageOfError e) s, w')
    end in
  (setLoading false s, w).

(** [JSON.stringify(form)] as the routes read it. *)
Definition bodyOf (f : Form) : RequestBody :=
  JsonObject (Some (form_name f)) (Some (form_value f)).

(** The state and the world when the promise of [handleSubmit] is settled;
    the timer that clears the toast two seconds later has not run yet. *)
Definition handleSubmit (s : HookState) (w : World) : HookState * World :=
  let s0 := setError "" s in
  let created := negb (truthy (editingId s)) in
  let submitted :=
    if truthy (editingId s)
    then fetchChecked (KeyById.PUT (bodyOf (form s)) (orEmpty (editingId s)))
           "Failed to update" w
    else fetchChecked (Keys.POST (bodyOf (form s))) "Failed to create" w in
  match submitted with
  | (Returned _, w') =>
      let s1 := setForm (mkForm "" "") s0 in
      let s1 := setEditingId None s1 in
      let s1 := setShowForm false s1 in
      let (s2, w'') := refresh s1 w' in
      if created
      then (setToastType "success" (setToastMessage "API key created" s2), w'')
      else (s2, w'')
  | (Thrown e, w') => (setError (messageOfError e) s0, w')
  end.



Definition cancelEdit (s : HookState) : HookState :=
  setShowForm false (setForm (mkForm "" "") (setEditingId None s)).

(** [prev[id]] read as a boolean. [prev] is a plain object: a name it does
    not hold itself is looked up in [Object.prototype], whose members are
    truthy. *)
Definition objectPrototypeMembers : list string :=
  [ "constructor"; "__proto__"; "hasOwnProperty"; "isPrototypeOf";
    "propertyIsEnumerable"; "toLocaleString"; "toString"; "valueOf";
    "__defineGetter__"; "__defineSetter__"; "__lookupGetter__";
    "__lookupSetter__" ].

Definition truthyAt (o : gmap string bool) (id : string) : bool :=
  match o !! id with
  | Some b => b
  | None => existsb (String.eqb id) objectPrototypeMembers
  end.

(** [setRevealedIds((prev) => ({ ...prev, [id]: !prev[id] }))] *)
Definition toggleReveal (id : string) (s : HookState) : HookState :=
  setRevealedIds (<[id := negb (truthyAt (revealedIds s) id)]> (revealedIds s)) s.

Definition clearToast (s : HookState) : HookState := setToastMessage "" s.

(** The value the table shows for a key:
    [revealed ? key.value : maskValue(key.value)] with
    [revealed = !!revealedIds[key.id]]. *)
Definition shownValue (revealed : gmap string bool) (key : ApiKey) : string :=
  if truthyAt revealed (key_id key) then key_value key
  else maskValue (key_value key).

(** The keys the table has to show. *)
Definition listed (s : HookState) : list ApiKey :=
  match apiKeys s with
  | KeyList keys => keys
  | _ => []
  end.

End Dashboard.

(** ** Properties of the classifier *)

Definition thirtyStars : string := "******************************".

Lemma startsWith_spec (p v : string) :
  startsWith v p = true <-> exists rest, v = p +:+ rest.
Proof.
  unfold startsWith. revert v.
  induction p as [|c p IH]; intros v; simpl.
  - split; [intros _; exists v; reflexivity | intros _; destruct v; reflexivity].
  - destruct v as [|d v]; simpl.
    + split; [discriminate | intros [rest H]; discriminate].
    + destruct (ascii_dec c d) as [->|Hne].
      * rewrite IH. split; intros [rest H]; exists rest.
        -- now rewrite H.
        -- now inversion H.
      * split; [discriminate | intros [rest H]; inversion H; congruence].
Qed.

Lemma length_append (a b : string) :
  String.length (a +:+ b) = String.length a + String.length b.
Proof. induction a as [|c a IH]; simpl; [reflexivity | now rewrite IH]. Qed.

Lemma length_substring_le (n : nat) (s : string) :
  String.length (substring 0 n s) <= n.
Proof.
  revert s; induction n as [|n IH]; intros [|c s]; simpl; try lia.
  specialize (IH s). lia.
Qed.

Lemma getKeyType_cases (v : string) :
  (startsWith v "prod_" = true /\ getKeyType v = "prod") \/
  (startsWith v "prod_" = false /\ startsWith v "stg_" = true /\
   getKeyType v = "stg") \/
  (startsWith v "prod_" = false /\ startsWith v "stg_" = false /\
   startsWith v "dev_" = true /\ getKeyType v = "dev") \/
  (startsWith v "prod_" = false /\ startsWith v "stg_" = false /\
   startsWith v "dev_" = false /\ getKeyType v = "custom").
Proof.
  unfold getKeyType.
  destruct (startsWith v "prod_"); [now left|].
  destruct (startsWith v "stg_"); [now right; left|].
  destruct (startsWith v "dev_"); [now right; right; left|].
  now right; right; right.
Qed.

(** The three literal prefixes exclude one another. *)
Lemma prefixes_exclusive (v : string) :
  (startsWith v "prod_" = true -> startsWith v "stg_" = false /\ startsWith v "dev_" = false) /\
  (startsWith v "stg_" = true -> startsWith v "prod_" = false /\ startsWith v "dev_" = false) /\
  (startsWith v "dev_" = true -> startsWith v "prod_" = false /\ startsWith v "stg_" = false).
Proof.
  split; [|split]; intros H; apply startsWith_spec in H;
    destruct H as [rest ->]; split; reflexivity.
Qed.

(** C3: [getKeyType] is a total function from strings to the four tags, and
    it is prefix-exact and case-sensitive: the tag is "prod" exactly when the
    value starts with the literal "prod_", "stg" exactly for "stg_", "dev"
    exactly for "dev_", and "custom" exactly when it starts with none of the
    three; "prod_x" is prod, while "prodx", the empty string and "PROD_x" are
    custom. *)
Theorem getKeyType_prefix_exact (v : string) :
  In (getKeyType v) ["prod"; "stg"; "dev"; "custom"] /\
  (getKeyType v = "prod" <-> exists rest, v = "prod_" +:+ rest) /\
  (getKeyType v = "stg" <-> exists rest, v = "stg_" +:+ rest) /\
  (getKeyType v = "dev" <-> exists rest, v = "dev_" +:+ rest) /\
  (getKeyType v = "custom" <->
     ~ (exists rest, v = "prod_" +:+ rest) /\
     ~ (exists rest, v = "stg_" +:+ rest) /\
     ~ (exists rest, v = "dev_" +:+ rest)) /\
  getKeyType "prod_x" = "prod" /\
  getKeyType "prodx" = "custom" /\
  getKeyType "" = "custom" /\
  getKeyType "PROD_x" = "custom".
Proof.
  rewrite <- !startsWith_spec.
  destruct (prefixes_exclusive v) as (Hp & Hs & Hd).
  destruct (getKeyType_cases v) as
    [(P & ->) | [(P & S & ->) | [(P & S & D & ->) | (P & S & D & ->)]]];
    rewrite ?P, ?S, ?D;
    try (destruct (Hp P) as [-> ->]);
    try (destruct (Hs S) as [_ ->]);
    simpl; repeat split; auto 6; try discriminate; try tauto;
    try (intros [? _]; discriminate); try (intros (_ & ? & _); congruence);
    try (intros (_ & _ & ?); congruence).
Qed.

(** C4: for every string, the mask is a literal prefix followed by exactly
    thirty stars; the prefix is the type and a hyphen for prod, stg and dev,
    and the first four characters of the value (all of it when shorter) for
    custom; the length of the mask is the length of the prefix plus 30, the
    prefix has at most five characters, and the empty string is masked by
    thirty stars alone. *)
Theorem maskValue_shape (v : string) :
  String.length thirtyStars = 30 /\
  (exists prefix,
     maskValue v = prefix +:+ thirtyStars /\
     String.length (maskValue v) = String.length prefix + 30 /\
     String.length prefix <= 5 /\
     ((getKeyType v = "prod" /\ prefix = "prod-") \/
      (getKeyType v = "stg" /\ prefix = "stg-") \/
      (getKeyType v = "dev" /\ prefix = "dev-") \/
      (getKeyType v = "custom" /\ prefix = substring 0 4 v /\
       String.length prefix = Nat.min 4 (String.length v)))) /\
  maskValue "" = thirtyStars /\
  maskValue (orEmpty None) = thirtyStars.
Proof.
  split; [reflexivity|]. split; [|split; reflexivity].
  unfold maskValue.
  destruct (getKeyType_cases v) as
    [(_ & E) | [(_ & _ & E) | [(_ & _ & _ & E) | (_ & _ & _ & E)]]];
    rewrite E; simpl.
  - exists "prod-". repeat split; auto; simpl; lia.
  - exists "stg-". repeat split; auto; simpl; lia.
  - exists "dev-". repeat split; auto; simpl; lia.
  - exists (substring 0 4 v). unfold slice; simpl Nat.sub.
    split; [reflexivity|]. split; [now rewrite length_append|].
    split; [pose proof (length_substring_le 4 v); lia|].
    right; right; right. repeat split.
    destruct v as [|a [|b [|c [|d [|e v]]]]]; reflexivity.
Qed.

(** C10: two values of the same recognised type (prod, stg or dev) have the
    same mask: the masked display of a recognised key depends on its type
    alone. *)
Theorem maskValue_noninterference (v1 v2 : string) :
  getKeyType v1 = getKeyType v2 ->
  In (getKeyType v1) ["prod"; "stg"; "dev"] ->
  maskValue v1 = maskValue v2.
Proof.
  intros Heq Hin. unfold maskValue. rewrite <- Heq.
  destruct Hin as [<- | [<- | [<- | []]]]; reflexivity.
Qed.

Lemma maskValue_noninterference_witness :
  getKeyType "prod_4f2a" = getKeyType "prod_9c1e7" /\
  In (getKeyType "prod_4f2a") ["prod"; "stg"; "dev"] /\
  maskValue "prod_4f2a" = maskValue "prod_9c1e7".
Proof.
  split; [reflexivity|]. split; [simpl; auto|].
  apply (maskValue_noninterference "prod_4f2a" "prod_9c1e7");
    [reflexivity | simpl; auto].
Defined.

(** ** Running the file store *)

Lemma generateSeedApiKeys_run (w : World) :
  generateSeedApiKeys w = (Returned (seedsOf w), snd (generateSeedApiKeys w)).
Proof. reflexivity. Qed.

Lemma seedsOf_eq (w : World) :
  seedsOf w =
    [ mkApiKey (uuidAfter w 0) "Production Key" ("prod_" +:+ nextHex w 0)
        (iso (nextInstant w)) (iso (nextInstant w));
      mkApiKey (uuidAfter w 1) "Staging Key" ("stg_" +:+ nextHex w 1)
        (iso (nextInstant w)) (iso (nextInstant w));
      mkApiKey (uuidAfter w 2) "Local Dev Key" ("dev_" +:+ nextHex w 2)
        (iso (nextInstant w)) (iso (nextInstant w)) ].
Proof. reflexivity. Qed.

Lemma readAllApiKeys_run (w : World) :
  readAllApiKeys w = (Returned (listing w), settled w).
Proof.
  unfold listing, settled, needsSeed, stored.
  destruct w as [f url sk ak c t us hs cl nw cd au].
  destruct f as [[|[[|k l]|]]|]; vm_compute; reflexivity.
Qed.

Lemma writeAllApiKeys_run (apiKeys : list ApiKey) (w : World) (text : FileText) :
  dataFile w = Some text ->
  writeAllApiKeys apiKeys w =
    (Returned tt, set_dataFile (Some (JSON_stringify apiKeys)) w).
Proof.
  intros H. unfold writeAllApiKeys, ensureDataFileExists, bind, try_catch,
    fs_mkdir, fs_access, ret.
  rewrite H. reflexivity.
Qed.

Lemma settled_file (w : World) :
  dataFile (settled w) = Some (JSON_stringify (listing w)).
Proof.
  unfold listing, settled, needsSeed, stored, afterSeeding.
  destruct (dataFile w) as [[|[[|k l]|]]|] eqn:E; try exact E;
    vm_compute; reflexivity.
Qed.

Lemma listing_nonempty (w : World) : listing w <> [].
Proof.
  unfold listing, needsSeed, stored.
  destruct (dataFile w) as [[|[[|k l]|]]|]; discriminate.
Qed.

Lemma settled_needsSeed (w : World) : needsSeed (settled w) = false.
Proof.
  unfold needsSeed. rewrite settled_file. unfold JSON_stringify.
  pose proof (listing_nonempty w). destruct (listing w); congruence.
Qed.

Lemma settled_listing (w : World) : listing (settled w) = listing w.
Proof.
  unfold listing at 1. rewrite settled_needsSeed.
  unfold stored. now rewrite settled_file.
Qed.

Lemma settled_idem (w : World) : settled (settled w) = settled w.
Proof. unfold settled at 1. now rewrite settled_needsSeed. Qed.

Lemma settled_keeps (w : World) :
  needsSeed w = false -> listing w = stored w /\ settled w = w.
Proof. intros H. unfold listing, settled. now rewrite H. Qed.

Lemma settled_frame (w : World) :
  table (settled w) = table w /\ cached (settled w) = cached w /\
  network (settled w) = network w /\ columnDefaults (settled w) = columnDefaults w.
Proof. unfold settled. destruct (needsSeed w); repeat split; reflexivity. Qed.

Lemma createApiKey_run (name value : string) (w : World) :
  exists w',
    createApiKey name value w = (Returned (created name value w), w') /\
    dataFile w' = Some (JSON_stringify (listing w ++ [created name value w])) /\
    table w' = table w.
Proof.
  unfold createApiKey, bind. rewrite readAllApiKeys_run.
  unfold nowISOString, newDate, randomUUID, bind, ret. simpl.
  erewrite writeAllApiKeys_run; [|simpl; apply settled_file].
  eexists; split; [reflexivity|]. split; [reflexivity|].
  simpl. apply settled_frame.
Qed.

Lemma getApiKeyById_run (apiKeyId : string) (w : World) :
  getApiKeyById apiKeyId w =
    (Returned (List.find (hasId apiKeyId) (listing w)), settled w).
Proof. unfold getApiKeyById, bind. now rewrite readAllApiKeys_run. Qed.

Lemma deleteApiKey_run (apiKeyId : string) (w : World) :
  deleteApiKey apiKeyId w =
    let next := List.filter (fun k => negb (hasId apiKeyId k)) (listing w) in
    if Nat.eqb (List.length next) (List.length (listing w))
    then (Returned false, settled w)
    else (Returned true, set_dataFile (Some (JSON_stringify next)) (settled w)).
Proof.
  unfold deleteApiKey, bind. rewrite readAllApiKeys_run. simpl.
  fold (hasId apiKeyId).
  destruct (Nat.eqb _ _); [reflexivity|].
  unfold bind. erewrite writeAllApiKeys_run; [reflexivity | apply settled_file].
Qed.

(** *** Lists: [find], [findIndex] and [filter] on ids *)

Lemma find_hasId_none (id : string) (keys : list ApiKey) :
  List.find (hasId id) keys = None <-> ~ In id (List.map key_id keys).
Proof.
  induction keys as [|k keys IH]; simpl; [tauto|].
  unfold hasId at 1. destruct (String.eqb_spec (key_id k) id) as [E|E].
  - split; [discriminate | intros H; exfalso; apply H; now left].
  - rewrite IH. tauto.
Qed.

Lemma find_app_fresh (id : string) (keys : list ApiKey) (k : ApiKey) :
  key_id k = id -> ~ In id (List.map key_id keys) ->
  List.find (hasId id) (keys ++ [k]) = Some k.
Proof.
  intros E F. induction keys as [|x keys IH]; simpl in *.
  - unfold hasId. rewrite E, String.eqb_refl. reflexivity.
  - unfold hasId at 1. destruct (String.eqb_spec (key_id x) id) as [E'|E'].
    + exfalso; apply F; now left.
    + apply IH. tauto.
Qed.

Lemma hasId_true (id : string) (k : ApiKey) : hasId id k = true <-> key_id k = id.
Proof. apply String.eqb_eq. Qed.

Lemma hasId_false (id : string) (k : ApiKey) : hasId id k = false <-> key_id k <> id.
Proof. apply String.eqb_neq. Qed.

Lemma filter_hasId_length (id : string) (keys : list ApiKey) :
  List.length (List.filter (fun k => negb (hasId id k)) keys) <= List.length keys /\
  (List.length (List.filter (fun k => negb (hasId id k)) keys) = List.length keys <->
   ~ In id (List.map key_id keys)).
Proof.
  induction keys as [|k keys [IHle IHeq]]; simpl; [split; [lia | tauto]|].
  destruct (hasId id k) eqn:Hk; simpl.
  - apply hasId_true in Hk.
    split; [lia|]. split; [lia | intros H; exfalso; apply H; now left].
  - apply hasId_false in Hk. split; [lia|]. split.
    + intros H [H'|H']; [congruence|]. apply IHeq in H'; [exact H' | lia].
    + intros H. f_equal. apply IHeq. tauto.
Qed.

Lemma filter_hasId_gone (id : string) (keys : list ApiKey) :
  ~ In id (List.map key_id (List.filter (fun k => negb (hasId id k)) keys)).
Proof.
  rewrite in_map_iff. intros (k & E & H). apply filter_In in H as [_ H].
  unfold hasId in H. rewrite <- E, String.eqb_refl in H. discriminate.
Qed.

(** ** The file store: seeding *)

Lemma needsSeed_states (w : World) :
  needsSeed w = true <->
  dataFile w = None \/ dataFile w = Some Malformed \/
  dataFile w = Some (Encodes JNotArray) \/ dataFile w = Some (JSON_stringify []).
Proof.
  unfold needsSeed, JSON_stringify.
  destruct (dataFile w) as [[|[[|k l]|]]|]; split; intros H; auto;
    try discriminate; destruct H as [H|[H|[H|H]]]; discriminate.
Qed.

Lemma getKeyType_of_prefix (suffix : string) :
  getKeyType ("prod_" +:+ suffix) = "prod" /\
  getKeyType ("stg_" +:+ suffix) = "stg" /\
  getKeyType ("dev_" +:+ suffix) = "dev".
Proof.
  unfold getKeyType.
  assert (P : startsWith ("prod_" +:+ suffix) "prod_" = true)
    by (apply startsWith_spec; eauto).
  assert (S : startsWith ("stg_" +:+ suffix) "stg_" = true)
    by (apply startsWith_spec; eauto).
  assert (D : startsWith ("dev_" +:+ suffix) "dev_" = true)
    by (apply startsWith_spec; eauto).
  rewrite P, S, D. repeat split.
Qed.

Lemma getAllApiKeys_seeds (w : World) :
  needsSeed w = true ->
  getAllApiKeys w = (Returned (seedsOf w), afterSeeding w) /\
  stored (afterSeeding w) = seedsOf w.
Proof.
  intros H. unfold getAllApiKeys. rewrite readAllApiKeys_run.
  unfold listing, settled. rewrite H. split; reflexivity.
Qed.

(** C9: when the data file is missing or empty (or holds no array at all),
    reading the store writes exactly three records to it and answers with
    them; their values are "prod_", "stg_" and "dev_", each followed by a
    suffix drawn from the random source, so that they classify as prod, stg
    and dev, in this order. *)
Theorem seeding_from_empty_or_missing (w : World) :
  dataFile w = None \/ dataFile w = Some (JSON_stringify []) ->
  exists k1 k2 k3 w',
    getAllApiKeys w = (Returned [k1; k2; k3], w') /\
    stored w' = [k1; k2; k3] /\
    List.map (fun k => getKeyType (key_value k)) [k1; k2; k3] =
      ["prod"; "stg"; "dev"] /\
    key_value k1 = "prod_" +:+ nextHex w 0 /\
    key_value k2 = "stg_" +:+ nextHex w 1 /\
    key_value k3 = "dev_" +:+ nextHex w 2.
Proof.
  intros H.
  assert (N : needsSeed w = true) by (apply needsSeed_states; tauto).
  destruct (getAllApiKeys_seeds w N) as [R S].
  rewrite seedsOf_eq in R, S.
  eexists _, _, _, _. split; [exact R|]. split; [exact S|].
  split; [|repeat split]. simpl.
  destruct (getKeyType_of_prefix (nextHex w 0)) as (-> & _ & _).
  destruct (getKeyType_of_prefix (nextHex w 1)) as (_ & -> & _).
  destruct (getKeyType_of_prefix (nextHex w 2)) as (_ & _ & ->).
  reflexivity.
Qed.

Lemma seeding_from_empty_or_missing_witness :
  exists k1 k2 k3 w',
    getAllApiKeys Samples.bare = (Returned [k1; k2; k3], w') /\
    stored w' = [k1; k2; k3] /\
    List.map (fun k => getKeyType (key_value k)) [k1; k2; k3] =
      ["prod"; "stg"; "dev"] /\
    key_value k1 = "prod_" +:+ nextHex Samples.bare 0 /\
    key_value k2 = "stg_" +:+ nextHex Samples.bare 1 /\
    key_value k3 = "dev_" +:+ nextHex Samples.bare 2.
Proof.
  apply (seeding_from_empty_or_missing Samples.bare). left. reflexivity.
Defined.

(** ** Running the routes *)

Lemma getSupabaseServerClient_run (w : World) :
  getSupabaseServerClient w =
    (Returned (if configured w then Some (theClient w) else None), connected w).
Proof.
  unfold getSupabaseServerClient, connected, configured, theClient.
  destruct w as [f url sk ak c t us hs cl nw cd au]; simpl.
  destruct c as [c|]; [reflexivity|].
  destruct (truthy url); simpl; [|reflexivity].
  destruct (truthy (or_else sk ak)); simpl; [|reflexivity].
  unfold try_catch, bind, createClient, ret; simpl.
  destruct (au (orEmpty url)); reflexivity.
Qed.

(** A URL [createClient] does not take leaves the server without a client,
    as missing settings do. *)
Lemma unusable_url_gives_no_client :
  configured Samples.unusableUrl = false /\
  getSupabaseServerClient Samples.unusableUrl =
    (Returned None, Samples.unusableUrl).
Proof. split; [reflexivity|]. now rewrite getSupabaseServerClient_run. Qed.

Lemma connected_frame (w : World) :
  dataFile (connected w) = dataFile w /\ table (connected w) = table w /\
  network (connected w) = network w /\ clock (connected w) = clock w /\
  columnDefaults (connected w) = columnDefaults w.
Proof. unfold connected. destruct (configured w); repeat split; reflexivity. Qed.

Lemma connected_unconfigured (w : World) : configured w = false -> connected w = w.
Proof. intros H. unfold connected. now rewrite H. Qed.

(** The three ways a request ends. *)
Lemma request_run {D : Type} (query : World -> Reply D * World) (w : World) :
  request query w =
    match nextFault w with
    | Rejects reason =>
        (Thrown reason, set_network (snd (draw (network w))) w)
    | QueryError message =>
        (Returned (mkReply None (Some message) None),
         set_network (snd (draw (network w))) w)
    | NoFault =>
        (Returned (fst (query (set_network (snd (draw (network w))) w))),
         snd (query (set_network (snd (draw (network w))) w)))
    end.
Proof.
  unfold request, nextFault. simpl.
  destruct (upcoming (network w) (consumed (network w))); try reflexivity.
  now destruct (query _).
Qed.

Lemma nextFault_connected (w : World) : nextFault (connected w) = nextFault w.
Proof. unfold nextFault. now destruct (connected_frame w) as (_ & _ & -> & _). Qed.

Lemma GET_keys_run (w : World) :
  exists keys w',
    Keys.GET w = (Returned (mkResponse (KeyList keys) 200), w') /\
    dataFile w' = dataFile w /\ table w' = table w /\
    keys =
      (if configured w then
         match nextFault w with
         | NoFault => List.map toApiKey (order_updated_at_desc (table w))
         | _ => Keys.mockApiKeys
         end
       else Keys.mockApiKeys).
Proof.
  destruct (connected_frame w) as (F & T & N & _).
  unfold Keys.GET, try_catch, bind. rewrite getSupabaseServerClient_run.
  destruct (configured w) eqn:C.
  - unfold select_ordered. rewrite request_run, nextFault_connected.
    destruct (nextFault w); simpl; eexists _, _; (split; [reflexivity|]);
      simpl; rewrite ?T; repeat split; auto.
  - simpl. eexists _, _. split; [reflexivity|]. repeat split; auto.
Qed.



(** ** Delete *)

Lemma delete_eq_run (id : string) (w : World) :
  nextFault w = NoFault ->
  exists w',
    delete_eq id w =
      (Returned (mkReply None None
         (Some (List.length (table w) -
                List.length (List.filter (fun r => negb (eq_id id r)) (table w))))),
       w') /\
    table w' = List.filter (fun r => negb (eq_id id r)) (table w) /\
    dataFile w' = dataFile w /\ cached w' = cached w /\
    faultAfter w' 0 = faultAfter w 1.
Proof.
  intros N. unfold delete_eq. rewrite request_run, N. simpl.
  eexists. split; [reflexivity|]. repeat split.
Qed.

Lemma filter_eq_id_length (id : string) (rows : list Row) :
  List.length (List.filter (fun r => negb (eq_id id r)) rows) <= List.length rows /\
  (existsb (eq_id id) rows = false ->
   List.filter (fun r => negb (eq_id id r)) rows = rows) /\
  (existsb (eq_id id) rows = true ->
   List.length (List.filter (fun r => negb (eq_id id r)) rows) < List.length rows) /\
  List.filter (eq_id id) (List.filter (fun r => negb (eq_id id r)) rows) = [].
Proof.
  induction rows as [|r rows (IH1 & IH2 & IH3 & IH4)]; simpl.
  - repeat split; auto; discriminate.
  - destruct (eq_id id r) eqn:E; simpl; rewrite ?E; simpl.
    + repeat split; auto; try lia; discriminate.
    + repeat split; auto; try lia.
      * intros H. now rewrite IH2.
      * intros H. specialize (IH3 H). lia.
Qed.

Lemma cached_connected (w : World) :
  configured w = true -> cached (connected w) = Some (theClient w).
Proof. intros C. unfold connected. rewrite C. reflexivity. Qed.

Lemma configured_cached (w : World) (c : Client) :
  cached w = Some c -> configured w = true.
Proof. intros H. unfold configured. now rewrite H. Qed.

Lemma DELETE_run (id : string) (w : World) :
  configured w = true -> nextFault w = NoFault ->
  exists w',
    KeyById.DELETE id w =
      (Returned (if hasRow id w then mkResponse SuccessTrue 200
                 else mkResponse (Message "Not found") 404), w') /\
    table w' = List.filter (fun r => negb (eq_id id r)) (table w) /\
    dataFile w' = dataFile w /\ configured w' = true /\
    faultAfter w' 0 = faultAfter w 1.
Proof.
  intros C N. destruct (connected_frame w) as (F & T & NW & _).
  unfold KeyById.DELETE, try_catch, bind.
  rewrite getSupabaseServerClient_run, C.
  destruct (delete_eq_run id (connected w)) as (w' & R & T' & F' & C' & N').
  { now rewrite nextFault_connected. }
  rewrite R. simpl. rewrite T. unfold hasRow.
  destruct (filter_eq_id_length id (table w)) as (L1 & L2 & L3 & _).
  exists w'. split.
  - destruct (existsb (eq_id id) (table w)).
    + specialize (L3 eq_refl).
      destruct (List.length (table w) - List.length _) eqn:E; [lia | reflexivity].
    + rewrite (L2 eq_refl), Nat.sub_diag. reflexivity.
  - rewrite T', T, F', F, N'. repeat split.
    + apply (configured_cached w' (theClient w)).
      now rewrite C', cached_connected.
    + unfold faultAfter. now rewrite NW.
Qed.

Lemma GET_key_run (id : string) (w : World) :
  configured w = true -> nextFault w = NoFault ->
  exists w',
    KeyById.GET id w =
      (Returned
         match List.filter (eq_id id) (table w) with
         | [] => mkResponse (Message "Not found") 404
         | [row] => mkResponse (Key (toApiKey row)) 200
         | _ => mkResponse (Message PGRST116) 500
         end, w') /\
    table w' = table w /\ dataFile w' = dataFile w.
Proof.
  intros C N. destruct (connected_frame w) as (F & T & NW & _).
  unfold KeyById.GET, try_catch, bind.
  rewrite getSupabaseServerClient_run, C.
  unfold select_eq_maybeSingle. rewrite request_run, nextFault_connected, N.
  simpl. rewrite T.
  destruct (List.filter (eq_id id) (table w)) as [|row [|row' rows]]; simpl;
    eexists; (split; [reflexivity|]); simpl; auto.
Qed.

(** C7: [deleteApiKey] answers with a boolean, which is true exactly when the
    store held a record of that id. When it is false the world is the one a
    plain read leaves, and a read answers with the same records as before;
    when it is true the records of that id are gone from the data file and
    [getApiKeyById] answers null afterwards (a store the delete has emptied
    is seeded anew by that read: the ids of those seeds are then taken to
    differ from the deleted one). The route DELETE, with a client and a
    service that answers, says the same in its own terms: 404 "Not found" and
    an unchanged table when there is no such row, [{ success: true }] when
    there is, after which GET of that id answers 404. Without a client the
    route answers 503 "API not configured" for every id and changes
    nothing; with a client and a service that answers with an error it
    answers 500 with the message of the error, and the table is as it
    was. *)
Theorem delete_reports_removal (id : string) (w : World) :
  (exists removed w',
     deleteApiKey id w = (Returned removed, w') /\
     (removed = true <-> In id (List.map key_id (listing w))) /\
     (removed = false ->
        w' = settled w /\ fst (getAllApiKeys w') = fst (getAllApiKeys w) /\
        stored w' = listing w /\ (needsSeed w = false -> w' = w)) /\
     (removed = true ->
        ~ In id (List.map key_id (stored w')) /\
        List.length (stored w') < List.length (listing w) /\
        ((stored w' = [] -> ~ In id (List.map key_id (seedsOf w'))) ->
         fst (getApiKeyById id w') = Returned None))) /\
  (configured w = true -> faultAfter w 0 = NoFault -> faultAfter w 1 = NoFault ->
   exists resp w',
     KeyById.DELETE id w = (Returned resp, w') /\
     dataFile w' = dataFile w /\
     (hasRow id w = false ->
        resp = mkResponse (Message "Not found") 404 /\ table w' = table w) /\
     (hasRow id w = true ->
        resp = mkResponse SuccessTrue 200 /\
        List.length (table w') < List.length (table w) /\
        exists w'',
          KeyById.GET id w' =
            (Returned (mkResponse (Message "Not found") 404), w''))) /\
  (configured w = false ->
   KeyById.DELETE id w =
     (Returned (mkResponse (Message "API not configured") 503), w)) /\
  (configured w = true -> forall message, nextFault w = QueryError message ->
   exists w',
     KeyById.DELETE id w = (Returned (mkResponse (Message message) 500), w') /\
     table w' = table w /\ dataFile w' = dataFile w).
Proof.
  split; [|split; [|split]].
  - rewrite deleteApiKey_run. cbv zeta.
    destruct (filter_hasId_length id (listing w)) as [Hle Heq].
    pose proof (filter_hasId_gone id (listing w)) as Hgone.
    set (next := List.filter (fun k => negb (hasId id k)) (listing w)) in *.
    destruct (Nat.eqb_spec (List.length next) (List.length (listing w))) as [E|E].
    + exists false, (settled w). split; [reflexivity|].
      split; [split; [discriminate | intros H; apply Heq in E; contradiction]|].
      split; [intros _ | discriminate].
      unfold getAllApiKeys. rewrite !readAllApiKeys_run, settled_listing.
      split; [reflexivity|]. split; [reflexivity|].
      split; [unfold stored; now rewrite settled_file|].
      intros S. now apply settled_keeps.
    + eexists true, _. split; [reflexivity|].
      split; [split; [intros _ | reflexivity]|].
      { destruct (in_dec string_dec id (List.map key_id (listing w))) as [I|I];
          [exact I | apply Heq in I; contradiction]. }
      split; [discriminate | intros _].
      split; [exact Hgone|]. split; [unfold stored; simpl; lia|]. intros Fresh.
      rewrite getApiKeyById_run. simpl. apply f_equal.
      apply find_hasId_none. unfold listing.
      destruct (needsSeed _) eqn:Emptied; [apply Fresh | exact Hgone].
      unfold needsSeed in Emptied. unfold stored. simpl in *.
      now destruct next.
  - intros C N0 N1.
    destruct (DELETE_run id w C) as (w' & R & T & F & C' & N'); [exact N0|].
    eexists _, w'. split; [exact R|]. split; [exact F|].
    destruct (filter_eq_id_length id (table w)) as (_ & L2 & L3 & L4).
    unfold hasRow in *. split; intros H; rewrite H.
    + split; [reflexivity|]. now rewrite T, L2.
    + split; [reflexivity|]. split; [rewrite T; now apply L3|].
      destruct (GET_key_run id w' C') as (w'' & G & _).
      { change (faultAfter w' 0 = NoFault). now rewrite N'. }
      exists w''. now rewrite G, T, L4.
  - intros C. unfold KeyById.DELETE, try_catch, bind.
    now rewrite getSupabaseServerClient_run, C, (connected_unconfigured w C).
  - intros C message N. destruct (connected_frame w) as (F & T & _).
    unfold KeyById.DELETE, try_catch, bind.
    rewrite getSupabaseServerClient_run, C. unfold delete_eq.
    rewrite request_run, nextFault_connected, N. simpl.
    eexists. split; [reflexivity|]. now split.
Qed.

Lemma delete_reports_removal_witness :
  (exists w',
     deleteApiKey "k1" Samples.withFile = (Returned true, w') /\
     fst (getApiKeyById "k1" w') = Returned None) /\
  (exists w', deleteApiKey "k2" Samples.withFile = (Returned false, w')) /\
  (exists w' w'',
     KeyById.DELETE "r1" Samples.remoteOne =
       (Returned (mkResponse SuccessTrue 200), w') /\
     KeyById.GET "r1" w' =
       (Returned (mkResponse (Message "Not found") 404), w'')) /\
  (exists w',
     KeyById.DELETE "r2" Samples.remoteOne =
       (Returned (mkResponse (Message "Not found") 404), w') /\
     table w' = table Samples.remoteOne) /\
  KeyById.DELETE "r2" Samples.bare =
    (Returned (mkResponse (Message "API not configured") 503), Samples.bare).
Proof.
  destruct (delete_reports_removal "k1" Samples.withFile)
    as ((b1 & w1 & R1 & B1 & _ & T1) & _).
  destruct (delete_reports_removal "k2" Samples.withFile)
    as ((b2 & w2 & R2 & B2 & _) & _).
  destruct (delete_reports_removal "r1" Samples.remoteOne)
    as (_ & D1 & _); destruct (D1 eq_refl eq_refl eq_refl)
    as (p1 & v1 & Q1 & _ & _ & S1).
  destruct (delete_reports_removal "r2" Samples.remoteOne)
    as (_ & D2 & _); destruct (D2 eq_refl eq_refl eq_refl)
    as (p2 & v2 & Q2 & _ & S2 & _).
  destruct (delete_reports_removal "r2" Samples.bare) as (_ & _ & D3 & _).
  assert (b1 = true) as -> by (apply B1; vm_compute; auto).
  assert (b2 = false) as ->.
  { destruct b2; [|reflexivity]. exfalso.
    assert (I : In "k2" (List.map key_id (listing Samples.withFile)))
      by (now apply B2).
    vm_compute in I. destruct I as [I|[]]. discriminate. }
  destruct (S1 eq_refl) as (-> & _ & v3 & G1).
  destruct (S2 eq_refl) as (-> & T2).
  split; [|split; [|split; [|split]]].
  - exists w1. split; [exact R1|]. apply (T1 eq_refl). intros _.
    inversion R1; subst w1. vm_compute. intros [H|[H|[H|[]]]]; discriminate.
  - exists w2. exact R2.
  - exists v1, v3. split; [exact Q1 | exact G1].
  - exists v2. split; [exact Q2 | exact T2].
  - exact (D3 eq_refl).
Defined.

(** C7 as stated fails where no client can be had: DELETE answers 503 "API
    not configured", an error, for an id no row has; with settings whose URL
    [createClient] does not take it answers so for the id of a row as well,
    and the row stays in the table. *)
Lemma delete_without_client_is_an_error :
  hasRow "r2" Samples.bare = false /\
  KeyById.DELETE "r2" Samples.bare =
    (Returned (mkResponse (Message "API not configured") 503), Samples.bare) /\
  hasRow "r1" Samples.unusableUrl = true /\
  KeyById.DELETE "r1" Samples.unusableUrl =
    (Returned (mkResponse (Message "API not configured") 503),
     Samples.unusableUrl).
Proof.
  assert (D : forall id w, configured w = false ->
            KeyById.DELETE id w =
              (Returned (mkResponse (Message "API not configured") 503), w)).
  { intros id w C. unfold KeyById.DELETE, try_catch, bind.
    now rewrite getSupabaseServerClient_run, C, (connected_unconfigured w C). }
  split; [reflexivity|]. split; [now apply D|].
  split; [reflexivity | now apply D].
Qed.

(** ** Create through the route *)

Arguments getSupabaseServerClient : simpl never.
Arguments insert_select_single : simpl never.
Arguments update_eq_select_single : simpl never.
Arguments truthy : simpl never.

Lemma truthy_Some (s : string) : truthy (Some s) = true <-> s <> "".
Proof.
  unfold truthy. destruct (String.eqb_spec s ""); simpl; split; congruence.
Qed.

Lemma POST_invalid (name value : option string) (w : World) :
  truthy name = false \/ truthy value = false ->
  Keys.POST (JsonObject name value) w =
    (Returned (mkResponse (Message "'name' and 'value' are required") 400), w).
Proof.
  intros H. unfold Keys.POST, try_catch, bind. cbn.
  destruct H as [-> | ->]; cbn; rewrite ?orb_true_r; reflexivity.
Qed.

Lemma POST_without_client (name value : string) (w : World) :
  name <> "" -> value <> "" -> configured w = false ->
  exists w',
    Keys.POST (JsonObject (Some name) (Some value)) w =
      (Returned (mkResponse (Key (madeUp name value w)) 201), w') /\
    dataFile w' = dataFile w /\ table w' = table w /\ cached w' = cached w /\
    configured w' = false.
Proof.
  intros Hn Hv C. apply truthy_Some in Hn, Hv.
  unfold Keys.POST, try_catch, bind. cbn.
  rewrite Hn, Hv. cbn.
  rewrite getSupabaseServerClient_run, C, (connected_unconfigured w C).
  simpl. eexists. split; [reflexivity|]. repeat split. exact C.
Qed.

Lemma POST_with_client (name value : string) (w : World) :
  name <> "" -> value <> "" -> configured w = true -> nextFault w = NoFault ->
  hasRow (default_id (nextDefaults w)) w = false ->
  exists w',
    Keys.POST (JsonObject (Some name) (Some value)) w =
      (Returned (mkResponse (Key (toApiKey (insertedRow name value w))) 201), w') /\
    table w' = table w ++ [insertedRow name value w] /\
    dataFile w' = dataFile w /\ configured w' = true /\
    faultAfter w' 0 = faultAfter w 1.
Proof.
  intros Hn Hv C N Fresh. apply truthy_Some in Hn, Hv.
  destruct (connected_frame w) as (F & T & NW & _ & CD).
  unfold Keys.POST, try_catch, bind. cbn.
  rewrite Hn, Hv. cbn.
  rewrite getSupabaseServerClient_run, C. cbn.
  unfold insert_select_single. rewrite request_run, nextFault_connected, N.
  unfold hasRow, nextDefaults in Fresh. simpl. rewrite CD, T, Fresh. simpl.
  eexists. split; [reflexivity|]. simpl. rewrite F.
  repeat split.
  - eapply configured_cached. simpl. now apply cached_connected.
  - unfold faultAfter. simpl. now rewrite NW.
Qed.

Lemma POST_answers (request : RequestBody) (w : World) :
  exists resp w', Keys.POST request w = (Returned resp, w').
Proof.
  unfold Keys.POST, try_catch.
  match goal with |- context [bind ?m ?k w] => destruct (bind m k w) as [[r|e] w'] end;
    eexists _, _; reflexivity.
Qed.

Lemma POST_created_is_a_row (request : RequestBody) (w : World) :
  configured w = true ->
  exists resp w',
    Keys.POST request w = (Returned resp, w') /\
    forall R, resp = mkResponse (Key R) 201 ->
      exists row, In row (table w') /\ toApiKey row = R.
Proof.
  intros C. destruct (connected_frame w) as (F & T & NW & _ & CD).
  unfold Keys.POST, try_catch, bind.
  destruct request as [| |name value]; cbn.
  1,2: eexists _, _; split; [reflexivity | discriminate].
  destruct (negb (truthy name) || negb (truthy value)); cbn.
  { eexists _, _; split; [reflexivity | discriminate]. }
  rewrite getSupabaseServerClient_run, C. cbn.
  unfold insert_select_single. rewrite request_run, nextFault_connected.
  destruct (nextFault w); cbn.
  2,3: eexists _, _; split; [reflexivity | discriminate].
  destruct (existsb _ _); cbn.
  { eexists _, _; split; [reflexivity | discriminate]. }
  eexists _, _; split; [reflexivity|]. intros R E. inversion E; subst R.
  eexists. split; [|reflexivity]. cbn. apply in_or_app. right. now left.
Qed.

(** C1, as the code has it: a record [createApiKey] returns is in the data
    file when the call returns; a record POST answers with (status 201) when
    a client is configured is a row of the remote table by then, and POST
    does answer so for a name and a value that are not empty, when the
    service takes the insert; without a client POST answers 201 with a
    record it has made up (its id is the reading of the clock, its value the
    first ten characters of the value given and three dots), and neither the
    data file nor the table changes. *)
Theorem create_is_stored_where_a_store_is_used (name value : string) (w : World) :
  (exists k w',
     createApiKey name value w = (Returned k, w') /\
     key_name k = name /\ key_value k = value /\
     stored w' = listing w ++ [k] /\ In k (stored w')) /\
  (configured w = true ->
   (forall request, exists resp w',
      Keys.POST request w = (Returned resp, w') /\
      forall R, resp = mkResponse (Key R) 201 ->
        exists row, In row (table w') /\ toApiKey row = R) /\
   (name <> "" -> value <> "" -> nextFault w = NoFault ->
    hasRow (default_id (nextDefaults w)) w = false ->
    exists R w',
      Keys.POST (JsonObject (Some name) (Some value)) w =
        (Returned (mkResponse (Key R) 201), w') /\
      key_name R = name /\ key_value R = value /\
      exists row, In row (table w') /\ toApiKey row = R)) /\
  (configured w = false -> name <> "" -> value <> "" ->
   exists R w',
     Keys.POST (JsonObject (Some name) (Some value)) w =
       (Returned (mkResponse (Key R) 201), w') /\
     key_id R = pretty (epochMs (nextInstant w)) /\ key_name R = name /\
     key_value R = substring 0 10 value +:+ "..." /\
     dataFile w' = dataFile w /\ table w' = table w).
Proof.
  split; [|split].
  - destruct (createApiKey_run name value w) as (w' & R & F & _).
    exists (created name value w), w'. split; [exact R|].
    split; [reflexivity|]. split; [reflexivity|].
    unfold stored. rewrite F. simpl. split; [reflexivity|].
    apply in_or_app. right. now left.
  - intros C. split; [intros request; now apply POST_created_is_a_row|].
    intros Hn Hv N Fresh.
    destruct (POST_with_client name value w Hn Hv C N Fresh) as (w' & R & T & _).
    eexists _, w'. split; [exact R|]. split; [reflexivity|].
    split; [reflexivity|]. exists (insertedRow name value w).
    split; [|reflexivity]. rewrite T. apply in_or_app. right. now left.
  - intros C Hn Hv.
    destruct (POST_without_client name value w Hn Hv C) as (w' & R & F & T & _).
    eexists _, w'. split; [exact R|]. do 3 (split; [reflexivity|]). now split.
Qed.

Lemma create_is_stored_where_a_store_is_used_witness :
  (exists k w',
     createApiKey "K1" "prod_abc" Samples.bare = (Returned k, w') /\
     In k (stored w')) /\
  (exists R w',
     Keys.POST (JsonObject (Some "K1") (Some "prod_abc")) Samples.remoteEmpty =
       (Returned (mkResponse (Key R) 201), w') /\
     exists row, In row (table w') /\ toApiKey row = R) /\
  (exists R w',
     Keys.POST (JsonObject (Some "K1") (Some "prod_abc")) Samples.bare =
       (Returned (mkResponse (Key R) 201), w') /\
     dataFile w' = dataFile Samples.bare /\ table w' = table Samples.bare).
Proof.
  destruct (create_is_stored_where_a_store_is_used "K1" "prod_abc" Samples.bare)
    as ((k & w1 & R1 & _ & _ & _ & I1) & _ & M).
  destruct (create_is_stored_where_a_store_is_used "K1" "prod_abc" Samples.remoteEmpty)
    as (_ & P & _).
  destruct (P eq_refl) as (_ & P').
  destruct P' as (R & w2 & R2 & _ & _ & I2);
    [discriminate | discriminate | reflexivity | reflexivity |].
  split; [|split].
  - exists k, w1. now split.
  - exists R, w2. now split.
  - destruct M as (R' & w3 & R3 & _ & _ & _ & F3 & T3);
      [reflexivity | discriminate | discriminate |].
    exists R', w3. split; [exact R3|]. now split.
Defined.

(** C1 as stated fails where no client is configured: POST answers 201 with
    a record, and that record is neither in the data file nor in the table,
    which are as they were. *)
Lemma create_without_client_stores_nothing :
  exists R w',
    Keys.POST (JsonObject (Some "K1") (Some "prod_abc")) Samples.withFile =
      (Returned (mkResponse (Key R) 201), w') /\
    stored w' = [Samples.oneKey] /\ ~ In R (stored w') /\
    table w' = [] /\ configured w' = false.
Proof.
  destruct (POST_without_client "K1" "prod_abc" Samples.withFile)
    as (w' & R & F & T & _ & C); [discriminate | discriminate | reflexivity |].
  eexists _, w'. split; [exact R|]. unfold stored. rewrite F, T, C. simpl.
  repeat split. intros [H|[]]. discriminate.
Qed.

(** ** Create, then get by id *)

Lemma filter_eq_id_app_fresh (id : string) (rows : list Row) (row : Row) :
  existsb (eq_id id) rows = false -> row_id row = id ->
  List.filter (eq_id id) (rows ++ [row]) = [row].
Proof.
  intros Fresh E. rewrite List.filter_app. simpl.
  unfold eq_id at 2. rewrite E, String.eqb_refl.
  induction rows as [|r rows IH]; simpl in *; [reflexivity|].
  destruct (eq_id id r); simpl in *; [discriminate | now apply IH].
Qed.

Lemma GET_key_without_client (id : string) (w : World) :
  configured w = false ->
  KeyById.GET id w =
    (Returned (mkResponse (Message "API not configured") 503), w).
Proof.
  intros C. unfold KeyById.GET, try_catch, bind.
  now rewrite getSupabaseServerClient_run, C, (connected_unconfigured w C).
Qed.

(** C5, as the code has it. File store: [createApiKey] returns a record
    with the name and the value given and with equal time stamps, and
    [getApiKeyById] of its id answers with that very record, the UUID drawn
    being new to the store. Route with a client, the service taking both
    requests and the id the table assigns being new: POST answers 201 with a
    record of that name and value, GET of its id answers 200 with the same
    record, and its time stamps are equal when the table leaves
    [updated_at] null or sets it to [created_at]. Route without a client:
    POST answers 201 with a record whose value is the first ten characters
    of the value given and three dots, and GET of its id answers 503. *)
Theorem create_then_getById (name value : string) (w : World) :
  (exists k w',
     createApiKey name value w = (Returned k, w') /\
     key_name k = name /\ key_value k = value /\ createdAt k = updatedAt k /\
     (~ In (key_id k) (List.map key_id (listing w)) ->
      getApiKeyById (key_id k) w' = (Returned (Some k), w'))) /\
  (configured w = true -> name <> "" -> value <> "" ->
   faultAfter w 0 = NoFault -> faultAfter w 1 = NoFault ->
   hasRow (default_id (nextDefaults w)) w = false ->
   exists R w' w'',
     Keys.POST (JsonObject (Some name) (Some value)) w =
       (Returned (mkResponse (Key R) 201), w') /\
     key_name R = name /\ key_value R = value /\
     KeyById.GET (key_id R) w' = (Returned (mkResponse (Key R) 200), w'') /\
     (default_updated_at (nextDefaults w) = None \/
      default_updated_at (nextDefaults w) = Some (default_created_at (nextDefaults w)) ->
      createdAt R = updatedAt R)) /\
  (configured w = false -> name <> "" -> value <> "" ->
   exists R w',
     Keys.POST (JsonObject (Some name) (Some value)) w =
       (Returned (mkResponse (Key R) 201), w') /\
     key_name R = name /\ key_value R = substring 0 10 value +:+ "..." /\
     KeyById.GET (key_id R) w' =
       (Returned (mkResponse (Message "API not configured") 503), w')).
Proof.
  split; [|split].
  - destruct (createApiKey_run name value w) as (w' & R & F & _).
    exists (created name value w), w'. split; [exact R|].
    split; [reflexivity|]. split; [reflexivity|]. split; [reflexivity|].
    intros Fresh. rewrite getApiKeyById_run.
    assert (N : needsSeed w' = false).
    { unfold needsSeed. rewrite F. unfold JSON_stringify.
      destruct (listing w); reflexivity. }
    assert (S : stored w' = listing w ++ [created name value w])
      by (unfold stored; now rewrite F).
    destruct (settled_keeps w' N) as [-> ->]. rewrite S.
    now rewrite (find_app_fresh _ _ _ eq_refl Fresh).
  - intros C Hn Hv N0 N1 Fresh.
    destruct (POST_with_client name value w Hn Hv C N0 Fresh)
      as (w' & R & T & _ & C' & N').
    destruct (GET_key_run (default_id (nextDefaults w)) w' C') as (w'' & G & _).
    { change (faultAfter w' 0 = NoFault). now rewrite N'. }
    rewrite T, (filter_eq_id_app_fresh _ _ (insertedRow name value w) Fresh eq_refl) in G.
    eexists _, w', w''. split; [exact R|]. split; [reflexivity|].
    split; [reflexivity|]. split; [exact G|].
    unfold toApiKey, insertedRow. simpl. intros [-> | ->]; reflexivity.
  - intros C Hn Hv.
    destruct (POST_without_client name value w Hn Hv C) as (w' & R & _ & _ & _ & C').
    eexists _, w'. split; [exact R|]. split; [reflexivity|].
    split; [reflexivity|]. now apply GET_key_without_client.
Qed.

Lemma create_then_getById_witness :
  (exists k w',
     createApiKey "K1" "prod_abc" Samples.withFile = (Returned k, w') /\
     getApiKeyById (key_id k) w' = (Returned (Some k), w')) /\
  (exists R w' w'',
     Keys.POST (JsonObject (Some "K1") (Some "prod_abc")) Samples.remoteOne =
       (Returned (mkResponse (Key R) 201), w') /\
     KeyById.GET (key_id R) w' = (Returned (mkResponse (Key R) 200), w'') /\
     createdAt R = updatedAt R).
Proof.
  destruct (create_then_getById "K1" "prod_abc" Samples.withFile)
    as ((k & w1 & R1 & _ & _ & _ & G1) & _).
  destruct (create_then_getById "K1" "prod_abc" Samples.remoteOne) as (_ & P & _).
  destruct P as (R & w2 & w3 & R2 & _ & _ & G2 & T2);
    [reflexivity | discriminate | discriminate | reflexivity | reflexivity
    | reflexivity |].
  split.
  - exists k, w1. split; [exact R1|]. apply G1.
    inversion R1; subst k. vm_compute. intros [H|[]]. discriminate.
  - exists R, w2, w3. split; [exact R2|]. split; [exact G2|].
    apply T2. left. reflexivity.
Defined.

(** C5 as stated fails where no client is configured: POST answers 201 with
    a record whose value is the first ten characters of the input and three
    dots, whose two time stamps come from two readings of the clock, and
    which no lookup finds: GET of its id answers 503, and the file store
    holds no record of that id. *)
Lemma create_without_client_no_round_trip :
  exists R w' w'',
    Keys.POST (JsonObject (Some "K1") (Some "prod_abcdefghijkl")) Samples.bare =
      (Returned (mkResponse (Key R) 201), w') /\
    key_value R = "prod_abcde..." /\
    key_value R <> "prod_abcdefghijkl" /\
    createdAt R <> updatedAt R /\
    KeyById.GET (key_id R) w' =
      (Returned (mkResponse (Message "API not configured") 503), w'') /\
    fst (getApiKeyById (key_id R) w') = Returned None.
Proof.
  destruct (POST_without_client "K1" "prod_abcdefghijkl" Samples.bare)
    as (w' & R & F & T & K & C); [discriminate | discriminate | reflexivity |].
  eexists _, w', w'. split; [exact R|].
  split; [reflexivity|]. split; [discriminate|]. split; [discriminate|].
  split.
  - unfold KeyById.GET, try_catch, bind.
    rewrite getSupabaseServerClient_run, C, (connected_unconfigured w' C).
    reflexivity.
  - inversion R; subst w'. vm_compute. reflexivity.
Qed.

(** ** Validation on create *)

(** C8, as the code has it: POST answers 400 "'name' and 'value' are
    required" whenever the name or the value of the body is missing or
    empty, and nothing else happens: the world (data file, table, cached
    client, sources) is the one before the call, no request having been
    made; so it is for the names and values ("", "v") and ("n", "").
    [createApiKey] itself checks nothing: for every name and value, the empty
    string included, it returns a record of that name and value and appends
    it to the data file. *)
Theorem create_validation (name value : option string) (w : World) :
  (truthy name = false \/ truthy value = false ->
   Keys.POST (JsonObject name value) w =
     (Returned (mkResponse (Message "'name' and 'value' are required") 400), w)) /\
  truthy None = false /\ truthy (Some "") = false /\
  Keys.POST (JsonObject (Some "") (Some "v")) w =
    (Returned (mkResponse (Message "'name' and 'value' are required") 400), w) /\
  Keys.POST (JsonObject (Some "n") (Some "")) w =
    (Returned (mkResponse (Message "'name' and 'value' are required") 400), w) /\
  (forall n v : string, exists k w',
     createApiKey n v w = (Returned k, w') /\
     key_name k = n /\ key_value k = v /\ stored w' = listing w ++ [k]).
Proof.
  split; [apply POST_invalid|]. split; [reflexivity|]. split; [reflexivity|].
  split; [apply POST_invalid; now left|].
  split; [apply POST_invalid; now right|].
  intros n v. destruct (createApiKey_run n v w) as (w' & R & F & _).
  exists (created n v w), w'. split; [exact R|]. split; [reflexivity|].
  split; [reflexivity|]. unfold stored. now rewrite F.
Qed.

Lemma create_validation_witness :
  Keys.POST (JsonObject None (Some "v")) Samples.remoteEmpty =
    (Returned (mkResponse (Message "'name' and 'value' are required") 400),
     Samples.remoteEmpty) /\
  Keys.POST (JsonObject (Some "n") (Some "")) Samples.bare =
    (Returned (mkResponse (Message "'name' and 'value' are required") 400),
     Samples.bare).
Proof.
  split.
  - destruct (create_validation None (Some "v") Samples.remoteEmpty) as [H _].
    apply H. left. reflexivity.
  - destruct (create_validation (Some "n") (Some "") Samples.bare) as [H _].
    apply H. right. reflexivity.
Defined.

(** C8 as stated fails on the file store: [createApiKey] with an empty name,
    or with an empty value, throws nothing and writes the record to the data
    file. *)
Lemma createApiKey_takes_empty_fields :
  (exists k w',
     createApiKey "" "v" Samples.withFile = (Returned k, w') /\
     key_name k = "" /\ stored w' = [Samples.oneKey; k]) /\
  (exists k w',
     createApiKey "n" "" Samples.withFile = (Returned k, w') /\
     key_value k = "" /\ stored w' = [Samples.oneKey; k]).
Proof.
  split.
  - destruct (createApiKey_run "" "v" Samples.withFile) as (w' & R & F & _).
    eexists _, w'. split; [exact R|]. split; [reflexivity|].
    unfold stored. now rewrite F.
  - destruct (createApiKey_run "n" "" Samples.withFile) as (w' & R & F & _).
    eexists _, w'. split; [exact R|]. split; [reflexivity|].
    unfold stored. now rewrite F.
Qed.

(** ** Update *)

Lemma findIndex_find {A : Type} (pred : A -> bool) (l : list A) :
  match findIndex pred l with
  | None => List.find pred l = None
  | Some i => exists x, l !! i = Some x /\ List.find pred l = Some x /\ pred x = true
  end.
Proof.
  induction l as [|a l IH]; simpl; [reflexivity|].
  destruct (pred a) eqn:E; [exists a; auto|].
  destruct (findIndex pred l) as [i|]; simpl; [|exact IH].
  destruct IH as (x & L & F & P). exists x. auto.
Qed.

(** The record [updateApiKey] puts in place of [existing]. *)
Lemma updateApiKey_run (apiKeyId : string) (name value : option string) (w : World) :
  match List.find (hasId apiKeyId) (listing w) with
  | None => updateApiKey apiKeyId name value w = (Returned None, settled w)
  | Some existing =>
      exists index w',
        let updated :=
          mkApiKey (key_id existing)
            (match name with Some n => n | None => key_name existing end)
            (match value with Some v => v | None => key_value existing end)
            (createdAt existing) (iso (nextInstant (settled w))) in
        updateApiKey apiKeyId name value w = (Returned (Some updated), w') /\
        listing w !! index = Some existing /\
        stored w' = <[index := updated]> (listing w) /\
        key_id updated = apiKeyId
  end.
Proof.
  unfold updateApiKey, bind. rewrite readAllApiKeys_run.
  fold (hasId apiKeyId).
  pose proof (findIndex_find (hasId apiKeyId) (listing w)) as H.
  destruct (findIndex (hasId apiKeyId) (listing w)) as [i|].
  - destruct H as (x & L & -> & P). rewrite L.
    unfold nowISOString, newDate, bind, ret. simpl.
    erewrite writeAllApiKeys_run; [|simpl; apply settled_file].
    eexists i, _. split; [reflexivity|]. split; [exact L|].
    split; [reflexivity|]. now apply hasId_true.
  - rewrite H. reflexivity.
Qed.

Lemma filter_eq_id_nil (id : string) (rows : list Row) :
  existsb (eq_id id) rows = false -> List.filter (eq_id id) rows = [].
Proof.
  induction rows as [|r rows IH]; simpl; [reflexivity|].
  destruct (eq_id id r); simpl; [discriminate | exact IH].
Qed.

(** What PUT sends as [updates] for a body that is JSON. *)
Lemma PUT_run (name value : option string) (id : string) (w : World) :
  configured w = true -> nextFault w = NoFault ->
  exists w',
    KeyById.PUT (JsonObject name value) id w =
      (Returned
         match List.filter (eq_id id) (table w) with
         | [row] =>
             mkResponse
               (Key (toApiKey
                       (apply_updates (mkUpdates (iso (nextInstant w)) name value) row)))
               200
         | _ => mkResponse (Message PGRST116) 500
         end, w') /\
    table w' =
      match List.filter (eq_id id) (table w) with
      | [_] =>
          List.map (fun r => if eq_id id r
                             then apply_updates (mkUpdates (iso (nextInstant w)) name value) r
                             else r) (table w)
      | _ => table w
      end /\
    dataFile w' = dataFile w.
Proof.
  intros C N.
  unfold KeyById.PUT, try_catch, bind. cbn.
  rewrite getSupabaseServerClient_run.
  set (w1 := set_clock _ w).
  change (configured w1) with (configured w). rewrite C. cbn.
  unfold update_eq_select_single. rewrite request_run, nextFault_connected.
  change (nextFault w1) with (nextFault w). rewrite N. cbn.
  destruct (connected_frame w1) as (F & T & _). rewrite T.
  change (table w1) with (table w). change (dataFile w1) with (dataFile w) in F.
  unfold nextInstant.
  destruct (List.filter (eq_id id) (table w)) as [|row [|row' rest]]; cbn;
    eexists; (split; [reflexivity|]); cbn; rewrite ?T, ?F; auto.
Qed.

(** C6 fails on the route: with a client and a service that answers, PUT of
    an id the table does not hold answers 500 with the error of [.single()],
    not 404 "Not found", and the table is as it was. (The file store answers
    null for such an id: [updateApiKey_run].) *)
Theorem PUT_of_a_missing_id_is_an_error
    (name value : option string) (id : string) (w : World) :
  configured w = true -> nextFault w = NoFault -> hasRow id w = false ->
  exists w',
    KeyById.PUT (JsonObject name value) id w =
      (Returned (mkResponse (Message PGRST116) 500), w') /\
    table w' = table w.
Proof.
  intros C N H. destruct (PUT_run name value id w C N) as (w' & R & T & _).
  rewrite (filter_eq_id_nil id (table w) H) in R, T. now exists w'.
Qed.

Lemma PUT_of_a_missing_id_is_an_error_witness :
  hasRow "r2" Samples.remoteOne = false /\
  exists w',
    KeyById.PUT (JsonObject (Some "K1b") None) "r2" Samples.remoteOne =
      (Returned
         (mkResponse
            (Message "JSON object requested, multiple (or no) rows returned")
            500), w') /\
    table w' = [Samples.oneRow].
Proof.
  split; [reflexivity|].
  apply (PUT_of_a_missing_id_is_an_error (Some "K1b") None "r2" Samples.remoteOne);
    reflexivity.
Defined.

(** The rest of C6 on the route: PUT of the id of a row answers 200 with the
    row in which the fields given are replaced, the others kept, and
    [updated_at] set to the clock, whatever the fields. *)
Lemma PUT_of_a_row (name value : option string) (id : string) (w : World) (row : Row) :
  configured w = true -> nextFault w = NoFault ->
  List.filter (eq_id id) (table w) = [row] ->
  exists R w',
    KeyById.PUT (JsonObject name value) id w =
      (Returned (mkResponse (Key R) 200), w') /\
    key_id R = row_id row /\ createdAt R = created_at row /\
    key_name R = match name with Some n => n | None => row_name row end /\
    key_value R = match value with Some v => v | None => row_value row end /\
    updatedAt R = iso (nextInstant w).
Proof.
  intros C N H. destruct (PUT_run name value id w C N) as (w' & R & _).
  rewrite H in R. eexists _, w'. split; [exact R|]. repeat split.
Qed.

(** The rest of C6 on the file store, on a sample: an id the store does not
    hold gives null; a name alone replaces the name, keeps the value and
    sets [updatedAt]. *)
Lemma updateApiKey_samples :
  fst (updateApiKey "k2" (Some "K1b") None Samples.withFile) = Returned None /\
  fst (updateApiKey "k1" (Some "K1b") None Samples.withFile) =
    Returned (Some (mkApiKey "k1" "K1b" "prod_abc" "2024-12-31T00:00:00Z"
                      "2025-01-01T00:00:00Z")) /\
  fst (updateApiKey "k1" None None Samples.withFile) =
    Returned (Some (mkApiKey "k1" "K1" "prod_abc" "2024-12-31T00:00:00Z"
                      "2025-01-01T00:00:00Z")).
Proof. repeat split; vm_compute; reflexivity. Qed.

(** ** More on the file store *)

Lemma filter_all_kept {A : Type} (p : A -> bool) (l : list A) :
  List.length (List.filter p l) = List.length l -> List.filter p l = l.
Proof.
  induction l as [|a l IH]; simpl; [reflexivity|].
  destruct (p a); simpl; intros H.
  - f_equal. apply IH. lia.
  - pose proof (List.filter_length_le p l). lia.
Qed.

Lemma stored_after_delete (id : string) (w : World) :
  stored (snd (deleteApiKey id w)) =
    List.filter (fun k => negb (hasId id k)) (listing w).
Proof.
  rewrite deleteApiKey_run. cbv zeta.
  destruct (Nat.eqb_spec
              (List.length (List.filter (fun k => negb (hasId id k)) (listing w)))
              (List.length (listing w))) as [E|E]; simpl.
  - unfold stored. rewrite settled_file. simpl. symmetry. now apply filter_all_kept.
  - reflexivity.
Qed.

(** X1: once the store has been read, reading it again answers with the
    same records and leaves the world as it is: no new seeds, no draw from
    the random sources or the clock; a lookup by id then is a search in those
    records. *)
Theorem second_read_changes_nothing (w w' : World) (keys : list ApiKey) :
  getAllApiKeys w = (Returned keys, w') ->
  getAllApiKeys w' = (Returned keys, w') /\
  forall id, getApiKeyById id w' = (Returned (List.find (hasId id) keys), w').
Proof.
  unfold getAllApiKeys. rewrite readAllApiKeys_run. intros H.
  inversion H; subst keys w'. split.
  - now rewrite readAllApiKeys_run, settled_listing, settled_idem.
  - intros id. now rewrite getApiKeyById_run, settled_listing, settled_idem.
Qed.

Lemma second_read_changes_nothing_witness :
  exists keys w',
    getAllApiKeys Samples.bare = (Returned keys, w') /\
    getAllApiKeys w' = (Returned keys, w') /\
    List.length keys = 3.
Proof.
  eexists _, _. split; [reflexivity|]. split; [|reflexivity].
  apply (second_read_changes_nothing Samples.bare). reflexivity.
Defined.

(** X2: [deleteApiKey] removes the records of the id given and no other:
    the data file afterwards holds the records listed before whose id is
    another, in the order they had. *)
Theorem deleteApiKey_keeps_the_others (id : string) (w : World) :
  exists removed w',
    deleteApiKey id w = (Returned removed, w') /\
    stored w' = List.filter (fun k => negb (hasId id k)) (listing w) /\
    forall k, In k (listing w) -> key_id k <> id -> In k (stored w').
Proof.
  pose proof (stored_after_delete id w) as S.
  rewrite deleteApiKey_run in *. cbv zeta in *.
  destruct (Nat.eqb _ _); eexists _, _; (split; [reflexivity|]);
    simpl in S; rewrite S; (split; [reflexivity|]);
    intros k I N; apply filter_In; (split; [exact I|]);
    apply hasId_false in N; now rewrite N.
Qed.

(** X3: the store never reads as empty. When every record listed has the id
    given, [deleteApiKey] answers true and leaves the empty array in the data
    file, and the next read writes three new seeds and answers with them. *)
Theorem deleting_every_record_reseeds (id : string) (w : World) :
  (forall k, In k (listing w) -> key_id k = id) ->
  exists w1 w2,
    deleteApiKey id w = (Returned true, w1) /\
    dataFile w1 = Some (JSON_stringify []) /\
    getAllApiKeys w1 = (Returned (seedsOf w1), w2) /\
    List.length (seedsOf w1) = 3 /\
    stored w2 = seedsOf w1.
Proof.
  intros All.
  assert (F : List.filter (fun k => negb (hasId id k)) (listing w) = []).
  { induction (listing w) as [|k l IH]; simpl; [reflexivity|].
    assert (E : hasId id k = true) by (apply hasId_true, All; now left).
    rewrite E. simpl. apply IH. intros k' I. apply All. now right. }
  rewrite deleteApiKey_run. cbv zeta. rewrite F.
  pose proof (listing_nonempty w) as N.
  destruct (listing w) as [|k l] eqn:L; [congruence|]. simpl.
  eexists _, _. split; [reflexivity|]. split; [reflexivity|].
  match goal with |- getAllApiKeys ?w1 = _ /\ _ =>
    assert (S : needsSeed w1 = true) by reflexivity;
    destruct (getAllApiKeys_seeds w1 S) as [R T]
  end.
  split; [exact R|]. split; [reflexivity | exact T].
Qed.

Lemma deleting_every_record_reseeds_witness :
  exists w1 w2,
    deleteApiKey "k1" Samples.withFile = (Returned true, w1) /\
    dataFile w1 = Some (JSON_stringify []) /\
    getAllApiKeys w1 = (Returned (seedsOf w1), w2) /\
    List.length (seedsOf w1) = 3 /\
    stored w2 = seedsOf w1.
Proof.
  apply (deleting_every_record_reseeds "k1" Samples.withFile).
  vm_compute. intros k [<-|[]]. reflexivity.
Defined.

Lemma find_insert_first {A : Type} (pred : A -> bool) (l : list A) (i : nat) (u : A) :
  findIndex pred l = Some i -> pred u = true ->
  List.find pred (<[i := u]> l) = Some u.
Proof.
  revert i. induction l as [|a l IH]; intros i; simpl; [discriminate|].
  destruct (pred a) eqn:E.
  - intros [= <-] U. simpl. now rewrite U.
  - destruct (findIndex pred l) as [j|]; simpl; [|discriminate].
    intros [= <-] U. simpl. rewrite E. now apply IH.
Qed.

Lemma insert_keeps_ids (l : list ApiKey) (i : nat) (x u : ApiKey) :
  l !! i = Some x -> key_id u = key_id x ->
  List.map key_id (<[i := u]> l) = List.map key_id l.
Proof.
  revert i. induction l as [|a l IH]; intros [|i]; simpl; try discriminate.
  - intros [= ->] E. now rewrite E.
  - intros L E. f_equal. now apply IH.
Qed.

Lemma insert_keeps_others (l : list ApiKey) (i : nat) (x u k : ApiKey) :
  l !! i = Some x -> In k l -> key_id k <> key_id x -> In k (<[i := u]> l).
Proof.
  revert i. induction l as [|a l IH]; intros [|i]; simpl; try discriminate.
  - intros [= ->] [->|I] N; [congruence | now right].
  - intros L [->|I] N; [now left | right; now apply IH].
Qed.

Lemma updateApiKey_at_first
    (id : string) (name value : option string) (w : World) (i : nat) (x : ApiKey) :
  findIndex (hasId id) (listing w) = Some i -> listing w !! i = Some x ->
  let updated :=
    mkApiKey (key_id x)
      (match name with Some n => n | None => key_name x end)
      (match value with Some v => v | None => key_value x end)
      (createdAt x) (iso (nextInstant (settled w))) in
  exists w',
    updateApiKey id name value w = (Returned (Some updated), w') /\
    dataFile w' = Some (JSON_stringify (<[i := updated]> (listing w))).
Proof.
  intros J L. cbv zeta.
  unfold updateApiKey, bind. rewrite readAllApiKeys_run.
  fold (hasId id). rewrite J, L.
  unfold nowISOString, newDate, bind, ret. simpl.
  erewrite writeAllApiKeys_run; [|simpl; apply settled_file].
  eexists. split; reflexivity.
Qed.

(** X4: [updateApiKey] works in place. For an id the store lists, it answers
    with the first record of that id in which the name and the value given
    replace the old ones (a field not given keeps its value), the id and
    [createdAt] are kept and [updatedAt] is the reading of the clock; the
    data file then holds the same ids in the same order, every record of
    another id is still there, and [getApiKeyById] of the id answers with the
    updated record. For an id the store does not list it answers null and the
    world is the one a read leaves. *)
Theorem updateApiKey_in_place
    (id : string) (name value : option string) (w : World) :
  (forall existing, List.find (hasId id) (listing w) = Some existing ->
   exists updated w',
     updateApiKey id name value w = (Returned (Some updated), w') /\
     key_id updated = id /\ createdAt updated = createdAt existing /\
     key_name updated = match name with Some n => n | None => key_name existing end /\
     key_value updated = match value with Some v => v | None => key_value existing end /\
     updatedAt updated = iso (nextInstant (settled w)) /\
     List.map key_id (stored w') = List.map key_id (listing w) /\
     (forall k, In k (listing w) -> key_id k <> id -> In k (stored w')) /\
     getApiKeyById id w' = (Returned (Some updated), w')) /\
  (List.find (hasId id) (listing w) = None ->
   updateApiKey id name value w = (Returned None, settled w)).
Proof.
  pose proof (findIndex_find (hasId id) (listing w)) as F.
  split.
  - intros existing E.
    destruct (findIndex (hasId id) (listing w)) as [i|] eqn:J; [|congruence].
    destruct F as (x & L & F & P). assert (x = existing) as -> by congruence.
    destruct (updateApiKey_at_first id name value w i existing J L)
      as (w' & R & D).
    assert (X : key_id existing = id) by (now apply hasId_true).
    assert (S : stored w' = <[i := mkApiKey (key_id existing)
                 (match name with Some n => n | None => key_name existing end)
                 (match value with Some v => v | None => key_value existing end)
                 (createdAt existing) (iso (nextInstant (settled w)))]> (listing w))
      by (unfold stored; now rewrite D).
    eexists _, w'. split; [exact R|]. split; [exact X|].
    do 4 (split; [reflexivity|]).
    split; [rewrite S; now apply (insert_keeps_ids _ _ existing)|].
    split; [intros k K N; rewrite S;
            apply (insert_keeps_others _ _ existing); congruence|].
    rewrite getApiKeyById_run.
    assert (N : needsSeed w' = false).
    { unfold needsSeed. rewrite D. unfold JSON_stringify.
      destruct (listing w); [discriminate L|]. now destruct i. }
    destruct (settled_keeps w' N) as [-> ->]. rewrite S. f_equal. f_equal.
    apply find_insert_first; [exact J | now apply hasId_true].
  - intros E. pose proof (updateApiKey_run id name value w) as H.
    now rewrite E in H.
Qed.

Lemma updateApiKey_in_place_witness :
  exists updated w',
    updateApiKey "k1" (Some "K1b") None Samples.withFile =
      (Returned (Some updated), w') /\
    key_name updated = "K1b" /\ key_value updated = "prod_abc" /\
    getApiKeyById "k1" w' = (Returned (Some updated), w').
Proof.
  destruct (updateApiKey_in_place "k1" (Some "K1b") None Samples.withFile)
    as [H _].
  destruct (H Samples.oneKey eq_refl)
    as (u & w' & R & _ & _ & N & V & _ & _ & _ & G).
  exists u, w'. repeat split; assumption.
Defined.

Lemma NoDup_map_filter {A B : Type} (f : A -> B) (p : A -> bool) (l : list A) :
  List.NoDup (List.map f l) -> List.NoDup (List.map f (List.filter p l)).
Proof.
  induction l as [|a l IH]; simpl; [auto|].
  intros H. apply List.NoDup_cons_iff in H as [N D].
  destruct (p a); simpl; [|now apply IH].
  apply List.NoDup_cons; [|now apply IH].
  intros I. apply N. apply in_map_iff in I as (x & E & I).
  apply in_map_iff. exists x. split; [exact E|].
  now apply filter_In in I as [I _].
Qed.

(** X5: the ids of the store stay distinct. If the records a read lists have
    distinct ids, then so have the records in the data file after an update
    and after a delete, whatever their arguments, and after a create when the
    UUID it draws is not yet an id of the store. *)
Theorem ids_stay_distinct (w : World) :
  List.NoDup (List.map key_id (listing w)) ->
  (forall id name value,
     List.NoDup (List.map key_id (stored (snd (updateApiKey id name value w))))) /\
  (forall id,
     List.NoDup (List.map key_id (stored (snd (deleteApiKey id w))))) /\
  (forall name value,
     ~ In (nextUUID (settled w)) (List.map key_id (listing w)) ->
     List.NoDup (List.map key_id (stored (snd (createApiKey name value w))))).
Proof.
  intros D. split; [|split].
  - intros id name value.
    pose proof (findIndex_find (hasId id) (listing w)) as F.
    pose proof (updateApiKey_run id name value w) as H.
    destruct (findIndex (hasId id) (listing w)) as [i|] eqn:J.
    + destruct F as (x & L & _ & _).
      destruct (updateApiKey_at_first id name value w i x J L) as (w' & R & S).
      rewrite R. simpl. unfold stored. rewrite S. simpl.
      now rewrite (insert_keeps_ids _ _ x).
    + rewrite F in H. rewrite H. simpl. unfold stored.
      now rewrite settled_file.
  - intros id. rewrite stored_after_delete. now apply NoDup_map_filter.
  - intros name value Fresh.
    destruct (createApiKey_run name value w) as (w' & R & S & _).
    rewrite R. simpl. unfold stored. rewrite S. simpl.
    rewrite List.map_app. simpl. apply List.NoDup_app. repeat split.
    + exact D.
    + apply List.NoDup_cons; [intros [] | apply List.NoDup_nil].
    + intros a I [<-|[]]. now apply Fresh.
Qed.

Lemma ids_stay_distinct_witness :
  List.NoDup (List.map key_id
    (stored (snd (updateApiKey "k1" (Some "K1b") None Samples.withFile)))) /\
  List.NoDup (List.map key_id (stored (snd (deleteApiKey "k2" Samples.withFile)))) /\
  List.NoDup (List.map key_id
    (stored (snd (createApiKey "K2" "dev_xyz" Samples.withFile)))).
Proof.
  assert (D : List.NoDup (List.map key_id (listing Samples.withFile))).
  { vm_compute. apply List.NoDup_cons; [intros [] | apply List.NoDup_nil]. }
  destruct (ids_stay_distinct Samples.withFile D) as (U & X & C).
  split; [apply U|]. split; [apply X|]. apply C.
  vm_compute. intros [H|[]]. discriminate.
Defined.

(** ** More on the routes *)

Lemma PUT_frame (name value : option string) (id : string) (w : World) :
  configured w = true -> nextFault w = NoFault ->
  configured (snd (KeyById.PUT (JsonObject name value) id w)) = true /\
  faultAfter (snd (KeyById.PUT (JsonObject name value) id w)) 0 = faultAfter w 1.
Proof.
  intros C N.
  unfold KeyById.PUT, try_catch, bind. cbn.
  rewrite getSupabaseServerClient_run.
  set (w1 := set_clock _ w).
  change (configured w1) with (configured w). rewrite C. cbn.
  unfold update_eq_select_single. rewrite request_run, nextFault_connected.
  change (nextFault w1) with (nextFault w). rewrite N. cbn.
  destruct (connected_frame w1) as (_ & T & NW & _). rewrite T.
  change (table w1) with (table w).
  assert (CC : cached (connected w1) = Some (theClient w1))
    by (now apply cached_connected).
  destruct (List.filter (eq_id id) (table w)) as [|row [|row' rest]]; cbn;
    (split; [eapply configured_cached; cbn; exact CC
            | unfold faultAfter; cbn; now rewrite NW]).
Qed.

Lemma filter_eq_id_map (id : string) (f : Row -> Row) (rows : list Row) :
  (forall r, row_id (f r) = row_id r) ->
  List.filter (eq_id id) (List.map (fun r => if eq_id id r then f r else r) rows) =
  List.map f (List.filter (eq_id id) rows).
Proof.
  intros K. induction rows as [|r rows IH]; simpl; [reflexivity|].
  destruct (eq_id id r) eqn:E.
  - assert (E' : eq_id id (f r) = true) by (unfold eq_id in *; now rewrite K).
    rewrite E'. simpl. now rewrite IH.
  - rewrite E. exact IH.
Qed.

(** X6: PUT of the id of a row changes that row and nothing else. With a
    client, a service that answers and exactly one row of the id, PUT answers
    200 with the row in which the string fields of the body replace the old
    ones and [updated_at] is the reading of the clock; the table keeps its
    size and every row of another id, and GET of the id then answers 200
    with the same record. *)
Theorem PUT_changes_one_row
    (name value : option string) (id : string) (w : World) (row : Row) :
  configured w = true -> faultAfter w 0 = NoFault -> faultAfter w 1 = NoFault ->
  List.filter (eq_id id) (table w) = [row] ->
  exists R w' w'',
    KeyById.PUT (JsonObject name value) id w =
      (Returned (mkResponse (Key R) 200), w') /\
    key_id R = id /\ createdAt R = created_at row /\
    key_name R = match name with Some n => n | None => row_name row end /\
    key_value R = match value with Some v => v | None => row_value row end /\
    updatedAt R = iso (nextInstant w) /\
    List.length (table w') = List.length (table w) /\
    (forall r, In r (table w) -> row_id r <> id -> In r (table w')) /\
    KeyById.GET id w' = (Returned (mkResponse (Key R) 200), w'').
Proof.
  intros C N0 N1 H.
  destruct (PUT_run name value id w C N0) as (w' & R & T & _).
  destruct (PUT_frame name value id w C N0) as (C' & N').
  rewrite R in C', N'. simpl in C', N'. rewrite H in R, T.
  destruct (GET_key_run id w' C') as (w'' & G & _).
  { change (faultAfter w' 0 = NoFault). now rewrite N'. }
  rewrite T, filter_eq_id_map, H in G by reflexivity. simpl in G.
  assert (I : row_id row = id).
  { assert (In row (List.filter (eq_id id) (table w))) as X
      by (rewrite H; now left).
    apply filter_In in X as [_ X]. now apply String.eqb_eq in X. }
  eexists _, w', w''. split; [exact R|]. split; [exact I|].
  do 4 (split; [reflexivity|]).
  split; [rewrite T; apply List.length_map|].
  split; [|exact G].
  intros r K D. rewrite T. apply in_map_iff. exists r. split; [|exact K].
  assert (E : eq_id id r = false) by (now apply String.eqb_neq).
  now rewrite E.
Qed.

Lemma PUT_changes_one_row_witness :
  exists R w' w'',
    KeyById.PUT (JsonObject (Some "K1b") None) "r1" Samples.remoteOne =
      (Returned (mkResponse (Key R) 200), w') /\
    key_name R = "K1b" /\ key_value R = "prod_abc" /\
    KeyById.GET "r1" w' = (Returned (mkResponse (Key R) 200), w'').
Proof.
  destruct (PUT_changes_one_row (Some "K1b") None "r1" Samples.remoteOne
              Samples.oneRow eq_refl eq_refl eq_refl eq_refl)
    as (R & w' & w'' & P & _ & _ & N & V & _ & _ & _ & G).
  exists R, w', w''. repeat split; assumption.
Defined.

Lemma key_routes_frame_without_client (w : World) :
  configured w = false ->
  (forall id,
     KeyById.DELETE id w =
       (Returned (mkResponse (Message "API not configured") 503), w)) /\
  (forall body id, body <> NotJson ->
     exists w',
       KeyById.PUT body id w =
         (Returned (mkResponse (Message "API not configured") 503), w') /\
       dataFile w' = dataFile w /\ table w' = table w).
Proof.
  intros C. split.
  - intros id. unfold KeyById.DELETE, try_catch, bind.
    now rewrite getSupabaseServerClient_run, C, (connected_unconfigured w C).
  - intros body id B. unfold KeyById.PUT, try_catch, bind.
    destruct body as [| |name value]; [congruence| |]; cbn;
      rewrite getSupabaseServerClient_run;
      match goal with |- context [configured ?w1] =>
        change (configured w1) with (configured w);
        rewrite C, (connected_unconfigured w1 C)
      end; cbn; eexists; repeat split.
Qed.

(** X7: without a client the routes of one key touch neither the data file
    nor the table. GET and DELETE answer 503 "API not configured" and leave
    the whole world as it is. PUT reads its body first: a body that is not
    JSON is answered 500 "Internal server error", every other body 503 "API
    not configured". *)
Theorem key_routes_without_client
    (body : RequestBody) (id : string) (w : World) :
  configured w = false ->
  KeyById.GET id w =
    (Returned (mkResponse (Message "API not configured") 503), w) /\
  KeyById.DELETE id w =
    (Returned (mkResponse (Message "API not configured") 503), w) /\
  exists w',
    KeyById.PUT body id w =
      (Returned
         match body with
         | NotJson => mkResponse (Message "Internal server error") 500
         | _ => mkResponse (Message "API not configured") 503
         end, w') /\
    dataFile w' = dataFile w /\ table w' = table w.
Proof.
  intros C. destruct (key_routes_frame_without_client w C) as (D & P).
  split; [now apply GET_key_without_client|]. split; [apply D|].
  destruct body as [| |name value].
  - exists w. repeat split.
  - apply P. discriminate.
  - apply P. discriminate.
Qed.

Lemma key_routes_without_client_witness :
  KeyById.DELETE "1" Samples.bare =
    (Returned (mkResponse (Message "API not configured") 503), Samples.bare) /\
  (exists w',
     KeyById.PUT (JsonObject (Some "n") None) "1" Samples.bare =
       (Returned (mkResponse (Message "API not configured") 503), w')) /\
  (exists w',
     KeyById.PUT NotJson "1" Samples.unusableUrl =
       (Returned (mkResponse (Message "Internal server error") 500), w')).
Proof.
  destruct (key_routes_without_client (JsonObject (Some "n") None) "1"
              Samples.bare eq_refl) as (_ & D & w' & R & _).
  destruct (key_routes_without_client NotJson "1" Samples.unusableUrl eq_refl)
    as (_ & _ & w'' & R' & _).
  split; [exact D|]. split; [now exists w' | now exists w''].
Defined.

Arguments delete_eq : simpl never.
Arguments select_eq_maybeSingle : simpl never.
Arguments request : simpl never.

Lemma faulty_request_run {D : Type} (query : World -> Reply D * World) (w : World) :
  nextFault w <> NoFault ->
  exists w',
    request query w =
      (match nextFault w with
       | QueryError message => Returned (mkReply None (Some message) None)
       | Rejects reason => Thrown reason
       | NoFault => Thrown ""
       end, w') /\
    table w' = table w /\ dataFile w' = dataFile w.
Proof.
  intros N. rewrite request_run.
  destruct (nextFault w); [congruence| |]; eexists; repeat split.
Qed.

(** The routes with a client, when the request does not end well: the error
    of the query builder is answered 500 with its message, a throw of the
    awaited call 500 "Internal server error"; the list route answers 200 with
    the mock records. *)
Lemma routes_under_a_fault
    (name value : string) (fields : RequestBody) (id : string) (w : World) :
  configured w = true -> name <> "" -> value <> "" -> fields <> NotJson ->
  nextFault w <> NoFault ->
  let message :=
    match nextFault w with
    | QueryError m => m
    | _ => "Internal server error"
    end in
  (exists w', Keys.POST (JsonObject (Some name) (Some value)) w =
                (Returned (mkResponse (Message message) 500), w') /\
              table w' = table w /\ dataFile w' = dataFile w) /\
  (exists w', KeyById.PUT fields id w =
                (Returned (mkResponse (Message message) 500), w') /\
              table w' = table w /\ dataFile w' = dataFile w) /\
  (exists w', KeyById.DELETE id w =
                (Returned (mkResponse (Message message) 500), w') /\
              table w' = table w /\ dataFile w' = dataFile w) /\
  (exists w', KeyById.GET id w =
                (Returned (mkResponse (Message message) 500), w') /\
              table w' = table w /\ dataFile w' = dataFile w) /\
  (exists w', Keys.GET w =
                (Returned (mkResponse (KeyList Keys.mockApiKeys) 200), w') /\
              table w' = table w /\ dataFile w' = dataFile w).
Proof.
  intros C Hn Hv B N. cbv zeta. apply truthy_Some in Hn, Hv.
  destruct (connected_frame w) as (F & T & _).
  split; [|split; [|split; [|split]]].
  - unfold Keys.POST, try_catch, bind. cbn. rewrite Hn, Hv. cbn.
    rewrite getSupabaseServerClient_run, C. cbn.
    unfold insert_select_single.
    match goal with |- context [request ?q (connected w)] =>
      destruct (faulty_request_run q (connected w)) as (w' & R & T' & F');
        [now rewrite nextFault_connected | rewrite R, nextFault_connected]
    end.
    destruct (nextFault w); [congruence| |]; cbn; exists w';
      (split; [reflexivity|]); split; congruence.
  - assert (PUT_fails : forall n v, exists w',
        (let (o, w'0) :=
           bind nowISOString (fun now =>
             bind getSupabaseServerClient (fun supabase =>
               match supabase with
               | None => NextResponse_json (Message "API not configured") 503
               | Some _ =>
                   bind (update_eq_select_single (mkUpdates now n v) id)
                     (fun reply =>
                        match error reply, data reply with
                        | Some message, _ => NextResponse_json (Message message) 500
                        | None, None => NextResponse_json (Message "Not found") 404
                        | None, Some row => NextResponse_json (Key (toApiKey row)) 200
                        end)
               end)) w in
         match o with
         | Returned a => (Returned a, w'0)
         | Thrown _ => NextResponse_json (Message "Internal server error") 500 w'0
         end) =
        (Returned (mkResponse (Message match nextFault w with
                                        | QueryError m => m
                                        | _ => "Internal server error"
                                        end) 500), w') /\
        table w' = table w /\ dataFile w' = dataFile w).
    { intros n v. unfold bind. cbn.
      rewrite getSupabaseServerClient_run.
      set (w1 := set_clock _ w).
      change (configured w1) with (configured w). rewrite C. cbn.
      unfold update_eq_select_single.
      destruct (connected_frame w1) as (F1 & T1 & _).
      match goal with |- context [request ?q (connected w1)] =>
        destruct (faulty_request_run q (connected w1)) as (w' & R & T' & F')
      end.
      { rewrite nextFault_connected. exact N. }
      rewrite R, nextFault_connected. change (nextFault w1) with (nextFault w).
      destruct (nextFault w); [congruence| |]; cbn; exists w';
        (split; [reflexivity|]); (split; [rewrite T', T1 | rewrite F', F1]);
        reflexivity. }
    unfold KeyById.PUT, try_catch.
    destruct fields as [| |n v]; [congruence| |].
    + apply (PUT_fails None None).
    + apply (PUT_fails n v).
  - unfold KeyById.DELETE, try_catch, bind.
    rewrite getSupabaseServerClient_run, C. cbn. unfold delete_eq.
    match goal with |- context [request ?q (connected w)] =>
      destruct (faulty_request_run q (connected w)) as (w' & R & T' & F');
        [now rewrite nextFault_connected | rewrite R, nextFault_connected]
    end.
    destruct (nextFault w); [congruence| |]; cbn; exists w';
      (split; [reflexivity|]); split; congruence.
  - unfold KeyById.GET, try_catch, bind.
    rewrite getSupabaseServerClient_run, C. cbn. unfold select_eq_maybeSingle.
    match goal with |- context [request ?q (connected w)] =>
      destruct (faulty_request_run q (connected w)) as (w' & R & T' & F');
        [now rewrite nextFault_connected | rewrite R, nextFault_connected]
    end.
    destruct (nextFault w); [congruence| |]; cbn; exists w';
      (split; [reflexivity|]); split; congruence.
  - destruct (GET_keys_run w) as (keys & w' & R & F' & T' & K).
    rewrite C in K. exists w'. rewrite R, K.
    destruct (nextFault w); [congruence| |]; repeat split; assumption.
Qed.

(** X8: the routes report an error of the service. With a client, when the
    query builder resolves with an error (as it does for a request that
    could not be sent: "TypeError: fetch failed"), POST with a name and a
    value that are not empty, PUT with a body that is JSON, DELETE and GET
    of one key answer 500 with the message of that error, and the list route
    answers 200 with the mock records; the table and the data file are as
    they were. *)
Theorem routes_report_a_failing_service
    (name value : string) (fields : RequestBody) (id message : string)
    (w : World) :
  configured w = true -> name <> "" -> value <> "" -> fields <> NotJson ->
  nextFault w = QueryError message ->
  (exists w', Keys.POST (JsonObject (Some name) (Some value)) w =
                (Returned (mkResponse (Message message) 500), w') /\
              table w' = table w /\ dataFile w' = dataFile w) /\
  (exists w', KeyById.PUT fields id w =
                (Returned (mkResponse (Message message) 500), w') /\
              table w' = table w /\ dataFile w' = dataFile w) /\
  (exists w', KeyById.DELETE id w =
                (Returned (mkResponse (Message message) 500), w') /\
              table w' = table w /\ dataFile w' = dataFile w) /\
  (exists w', KeyById.GET id w =
                (Returned (mkResponse (Message message) 500), w') /\
              table w' = table w /\ dataFile w' = dataFile w) /\
  (exists w', Keys.GET w =
                (Returned (mkResponse (KeyList Keys.mockApiKeys) 200), w') /\
              table w' = table w /\ dataFile w' = dataFile w).
Proof.
  intros C Hn Hv B N.
  assert (F : nextFault w <> NoFault) by (rewrite N; discriminate).
  pose proof (routes_under_a_fault name value fields id w C Hn Hv B F) as R.
  cbv zeta in R. now rewrite N in R.
Qed.

Lemma routes_report_a_failing_service_witness :
  exists w',
    KeyById.DELETE "r1" (MoreSamples.failing (QueryError "TypeError: fetch failed")) =
      (Returned (mkResponse (Message "TypeError: fetch failed") 500), w') /\
    table w' = [Samples.oneRow].
Proof.
  destruct (routes_report_a_failing_service "K1" "v" JsonNull "r1"
              "TypeError: fetch failed"
              (MoreSamples.failing (QueryError "TypeError: fetch failed")))
    as (_ & _ & (w' & R & T & _) & _);
    [reflexivity | discriminate | discriminate | discriminate | reflexivity |].
  exists w'. now split.
Defined.

(** X9: of the bodies whose name and value are each a string or missing,
    POST answers 400 exactly those in which the name or the value is
    missing or empty. A body whose name and value are strings that are not
    empty, be they made of blanks only, is never answered 400: the answer is
    201 or 500. A body that is not JSON, or that is the JSON value null, is
    answered 500 "Internal server error", and the world is as it was. *)
Theorem POST_400_exactly_for_empty_fields
    (name value : option string) (w : World) :
  (exists resp w',
     Keys.POST (JsonObject name value) w = (Returned resp, w') /\
     (status resp = 400 <-> truthy name = false \/ truthy value = false) /\
     (status resp = 400 \/ status resp = 201 \/ status resp = 500)) /\
  truthy (Some " ") = true /\
  Keys.POST NotJson w =
    (Returned (mkResponse (Message "Internal server error") 500), w) /\
  Keys.POST JsonNull w =
    (Returned (mkResponse (Message "Internal server error") 500), w).
Proof.
  split; [|repeat split].
  destruct (truthy name) eqn:Hn; [destruct (truthy value) eqn:Hv|].
  2,3: rewrite POST_invalid by auto; eexists _, _; split; [reflexivity|];
       simpl; split; [split; auto | auto].
  assert (No : forall resp : Response,
            status resp = 201 \/ status resp = 500 ->
            (status resp = 400 <-> true = false \/ true = false) /\
            (status resp = 400 \/ status resp = 201 \/ status resp = 500)).
  { intros resp [E|E]; rewrite E; repeat split; auto;
      try discriminate; intros [H|H]; discriminate. }
  unfold Keys.POST, try_catch, bind. cbn. rewrite Hn, Hv. cbn.
  rewrite getSupabaseServerClient_run.
  destruct (configured w); cbn.
  - unfold insert_select_single. rewrite request_run.
    destruct (nextFault (connected w)); cbn.
    + destruct (existsb _ _); cbn; eexists _, _; (split; [reflexivity|]);
        apply No; simpl; auto.
    + eexists _, _; (split; [reflexivity|]); apply No; simpl; auto.
    + eexists _, _; (split; [reflexivity|]); apply No; simpl; auto.
  - eexists _, _; (split; [reflexivity|]); apply No; simpl; auto.
Qed.

(** ** The client *)

(** X10: the client is built once. [getSupabaseServerClient] answers null
    exactly when no client is cached and the URL, or both keys, are missing or
    empty, or [createClient] throws for the URL, and then it leaves the world
    as it is; a client it builds has the URL of the settings and the service
    role key, or the anon key when the service role key is missing or empty;
    and once it has answered with a client, every later call answers with
    that same client, whatever the settings have become. *)
Theorem client_is_built_once (w : World) :
  exists answer w',
    getSupabaseServerClient w = (Returned answer, w') /\
    (answer = None <->
       cached w = None /\
       (truthy (NEXT_PUBLIC_SUPABASE_URL w) = false \/
        truthy (SUPABASE_SERVICE_ROLE_KEY w) = false /\
        truthy (NEXT_PUBLIC_SUPABASE_ANON_KEY w) = false \/
        acceptsUrl w (orEmpty (NEXT_PUBLIC_SUPABASE_URL w)) = false)) /\
    (answer = None -> w' = w) /\
    (forall c, answer = Some c ->
       (cached w = None ->
        client_url c = orEmpty (NEXT_PUBLIC_SUPABASE_URL w) /\
        client_key c =
          (if truthy (SUPABASE_SERVICE_ROLE_KEY w)
           then orEmpty (SUPABASE_SERVICE_ROLE_KEY w)
           else orEmpty (NEXT_PUBLIC_SUPABASE_ANON_KEY w))) /\
       forall url serviceKey anonKey,
         getSupabaseServerClient (set_env url serviceKey anonKey w') =
           (Returned (Some c), set_env url serviceKey anonKey w')).
Proof.
  unfold getSupabaseServerClient.
  destruct w as [f url sk ak c t us hs cl nw cd au]; simpl.
  destruct c as [c|].
  { eexists _, _. split; [reflexivity|]. split; [split; [discriminate|]|].
    - intros [H _]. discriminate.
    - split; [discriminate|]. intros c' [= <-]. split; [discriminate|].
      reflexivity. }
  unfold or_else, try_catch, bind, createClient, ret.
  destruct (truthy url) eqn:U; simpl.
  - destruct (truthy sk) eqn:S; simpl.
    + rewrite S. simpl. destruct (au (orEmpty url)) eqn:A; simpl.
      * eexists _, _. split; [reflexivity|].
        split; [split; [discriminate | intros [_ [H|[[H _]|H]]]; discriminate]|].
        split; [discriminate|]. intros c' [= <-]. split; [now split|]. reflexivity.
      * eexists _, _. split; [reflexivity|].
        split; [split; auto|]. split; [reflexivity | discriminate].
    + destruct (truthy ak) eqn:K; simpl.
      * destruct (au (orEmpty url)) eqn:A; simpl.
        -- eexists _, _. split; [reflexivity|].
           split; [split; [discriminate | intros [_ [H|[[_ H]|H]]]; discriminate]|].
           split; [discriminate|]. intros c' [= <-]. split; [now split|]. reflexivity.
        -- eexists _, _. split; [reflexivity|].
           split; [split; auto|]. split; [reflexivity | discriminate].
      * eexists _, _. split; [reflexivity|].
        split; [split; auto|]. split; [reflexivity | discriminate].
  - eexists _, _. split; [reflexivity|].
    split; [split; auto|]. split; [reflexivity | discriminate].
Qed.

(** ** Regular expressions: [test] decides the language *)

Lemma append_cons (c : ascii) (s t : string) :
  String c s +:+ t = String c (s +:+ t).
Proof. reflexivity. Qed.

Lemma append_nil_l (t : string) : "" +:+ t = t.
Proof. reflexivity. Qed.

Lemma append_empty (s t : string) : s +:+ t = "" -> s = "" /\ t = "".
Proof.
  destruct s; [rewrite append_nil_l; auto | rewrite append_cons; discriminate].
Qed.

Lemma nullable_Matches (r : regex) : nullable r = true <-> Matches r "".
Proof.
  split.
  - induction r; simpl; intros H; try discriminate.
    + constructor.
    + apply andb_true_iff in H as [Ha Hb].
      change "" with ("" +:+ ""). constructor; auto.
    + apply orb_true_iff in H as [H|H];
        [apply MatchLeft | apply MatchRight]; auto.
    + constructor.
  - intros H. remember "" as s eqn:E. induction H; simpl; try reflexivity;
      try discriminate.
    + apply append_empty in E as [-> ->]. now rewrite IHMatches1, IHMatches2.
    + rewrite IHMatches by assumption. reflexivity.
    + rewrite IHMatches by assumption. apply orb_true_r.
Qed.

Lemma Matches_Star_cons (a : regex) (c : ascii) (s : string) :
  Matches (Star a) (String c s) ->
  exists s1 s2, s = s1 +:+ s2 /\ Matches a (String c s1) /\ Matches (Star a) s2.
Proof.
  intros H. remember (Star a) as r eqn:R. remember (String c s) as u eqn:U.
  revert s U. induction H; intros u' U; try discriminate.
  inversion R; subst a0. destruct s as [|d s].
  - rewrite append_nil_l in U. now apply IHMatches2.
  - rewrite append_cons in U. inversion U; subst d u'. exists s, t. auto.
Qed.

Lemma derive_Matches (r : regex) (c : ascii) (s : string) :
  Matches (derive c r) s <-> Matches r (String c s).
Proof.
  revert s. induction r as [| |p|a IHa b IHb|a IHa b IHb|a IHa]; intros s; simpl.
  - split; intros H; inversion H.
  - split; intros H; inversion H.
  - destruct (p c) eqn:P; split; intros H; inversion H; subst.
    + now constructor.
    + constructor.
    + congruence.
  - assert (Fwd : Matches (Then (derive c a) b) s -> Matches (Then a b) (String c s)).
    { intros H. inversion H; subst.
      change (String c (s0 +:+ t)) with (String c s0 +:+ t).
      constructor; [now apply IHa | assumption]. }
    assert (Bwd : forall s1 t, Matches a (String c s1) -> Matches b t ->
                              Matches (Then (derive c a) b) (s1 +:+ t)).
    { intros s1 t Ha Hb. constructor; [now apply IHa | assumption]. }
    destruct (nullable a) eqn:N; split; intros H.
    + inversion H; subst; [now apply Fwd|].
      change (String c s) with ("" +:+ String c s).
      constructor; [now apply nullable_Matches | now apply IHb].
    + inversion H as [| |a' b' s1 t Ha Hb E1 E2| | | |]; subst.
      destruct s1 as [|d s1];
        [rewrite append_nil_l in E2 | rewrite append_cons in E2].
      * subst t. apply MatchRight. now apply IHb.
      * inversion E2; subst. apply MatchLeft. now apply Bwd.
    + now apply Fwd.
    + inversion H as [| |a' b' s1 t Ha Hb E1 E2| | | |]; subst.
      destruct s1 as [|d s1];
        [rewrite append_nil_l in E2 | rewrite append_cons in E2].
      * apply nullable_Matches in Ha. congruence.
      * inversion E2; subst. now apply Bwd.
  - split; intros H; inversion H; subst;
      [apply MatchLeft; now apply IHa | apply MatchRight; now apply IHb
      | apply MatchLeft; now apply IHa | apply MatchRight; now apply IHb].
  - split; intros H.
    + inversion H; subst.
      change (String c (s0 +:+ t)) with (String c s0 +:+ t).
      constructor; [now apply IHa | assumption].
    + apply Matches_Star_cons in H as (s1 & s2 & -> & Ha & Hs).
      constructor; [now apply IHa | assumption].
Qed.

Lemma test_Matches (r : regex) (s : string) : test r s = true <-> Matches r s.
Proof.
  revert r. induction s as [|c s IH]; intros r; simpl.
  - apply nullable_Matches.
  - rewrite IH. apply derive_Matches.
Qed.

Lemma allOf_append (alphabet : ascii -> bool) (s t : string) :
  allOf alphabet (s +:+ t) = allOf alphabet s && allOf alphabet t.
Proof.
  induction s as [|c s IH]; [reflexivity|].
  rewrite append_cons. simpl. now rewrite IH, andb_assoc.
Qed.

Lemma Matches_within (alphabet : ascii -> bool) (r : regex) (s : string) :
  within alphabet r -> Matches r s -> allOf alphabet s = true.
Proof.
  intros W H. induction H; simpl in *; try reflexivity.
  - now rewrite (W c H).
  - rewrite allOf_append. destruct W as [Wa Wb].
    now rewrite IHMatches1, IHMatches2.
  - apply IHMatches, W.
  - apply IHMatches, W.
  - rewrite allOf_append. now rewrite IHMatches1, IHMatches2.
Qed.

Lemma Matches_Star_allOf (p : ascii -> bool) (s : string) :
  allOf p s = true -> Matches (Star (Class p)) s.
Proof.
  induction s as [|c s IH]; simpl; intros H; [constructor|].
  apply andb_true_iff in H as [Hc Hs].
  change (String c s) with (String c "" +:+ s).
  constructor; [now constructor | now apply IH].
Qed.

(** ** The validation route *)

Import ValidateRoute.

Lemma trimEnd_cons (c : ascii) (rest : string) :
  isWhiteSpace c = false -> trimEnd (String c rest) = String c (trimEnd rest).
Proof. intros H. simpl. rewrite H. now destruct (trimEnd rest). Qed.

Lemma trimEnd_idempotent (s : string) : trimEnd (trimEnd s) = trimEnd s.
Proof.
  induction s as [|c rest IH]; [reflexivity|]. simpl.
  destruct (trimEnd rest) as [|d kept] eqn:K.
  - destruct (isWhiteSpace c) eqn:W; [reflexivity|]. simpl. now rewrite W.
  - change (trimEnd (String c (String d kept)))
      with (match trimEnd (String d kept) with
            | EmptyString => if isWhiteSpace c then EmptyString else String c EmptyString
            | kept' => String c kept'
            end).
    now rewrite IH.
Qed.

Lemma trimStart_head (s : string) :
  match trimStart s with
  | EmptyString => True
  | String c _ => isWhiteSpace c = false
  end.
Proof.
  induction s as [|c rest IH]; simpl; [exact I|].
  destruct (isWhiteSpace c) eqn:W; [exact IH | exact W].
Qed.

Lemma trim_idempotent (s : string) : trim (trim s) = trim s.
Proof.
  unfold trim. pose proof (trimStart_head s) as H.
  destruct (trimStart s) as [|c rest]; [reflexivity|].
  rewrite (trimEnd_cons c rest H). simpl trimStart. rewrite H.
  rewrite <- (trimEnd_cons c rest H). apply trimEnd_idempotent.
Qed.

Lemma trim_nothing (s : string) :
  allOf (fun c => negb (isWhiteSpace c)) s = true -> trim s = s.
Proof.
  intros H. unfold trim.
  assert (S : trimStart s = s).
  { destruct s as [|c rest]; [reflexivity|]. simpl in *.
    apply andb_true_iff in H as [H _]. apply negb_true_iff in H. now rewrite H. }
  rewrite S. induction s as [|c rest IH]; [reflexivity|].
  simpl in H. apply andb_true_iff in H as [Hc Hr]. apply negb_true_iff in Hc.
  rewrite (trimEnd_cons c rest Hc). f_equal. apply IH; [exact Hr|].
  destruct rest as [|d rest]; [reflexivity|]. simpl in *.
  apply andb_true_iff in Hr as [Hd _]. apply negb_true_iff in Hd. now rewrite Hd.
Qed.

Lemma trim_empty_falsy (apiKey : option string) :
  trim (orEmpty apiKey) = "" <->
  negb (truthy apiKey) || Nat.eqb (String.length (trim (orEmpty apiKey))) 0 = true.
Proof.
  split.
  - intros ->. apply orb_true_r.
  - intros H. apply orb_true_iff in H as [H|H].
    + apply negb_true_iff in H. destruct apiKey as [s|]; [|reflexivity].
      unfold truthy in H. apply negb_false_iff, String.eqb_eq in H. now subst s.
    + apply Nat.eqb_eq in H. now destruct (trim (orEmpty apiKey)).
Qed.

Lemma validate_run (apiKey : option string) (w : World) :
  ValidateRoute.POST (BodyWith apiKey) w =
    if negb (truthy apiKey) || Nat.eqb (String.length (trim (orEmpty apiKey))) 0
    then (Returned invalidFormat, w)
    else if configured w then
      match nextFault w with
      | NoFault =>
          (Returned
             match List.filter
                     (fun r => String.eqb (row_value r) (trim (orEmpty apiKey)))
                     (table w) with
             | [] => invalid
             | [row] => valid (Some (row_name row))
             | _ => databaseError
             end,
           set_network (snd (draw (network (connected w)))) (connected w))
      | QueryError _ =>
          (Returned databaseError,
           set_network (snd (draw (network (connected w)))) (connected w))
      | Rejects _ =>
          (Returned invalidRequest,
           set_network (snd (draw (network (connected w)))) (connected w))
      end
    else
      (Returned (if validateApiKeyPattern (trim (orEmpty apiKey))
                 then valid None else invalid), w).
Proof.
  unfold ValidateRoute.POST, try_catch, bind. cbn.
  destruct (negb (truthy apiKey) || _); [reflexivity|].
  rewrite getSupabaseServerClient_run.
  destruct (configured w) eqn:C; cbn.
  - unfold select_eq_value_maybeSingle. rewrite request_run, nextFault_connected.
    destruct (connected_frame w) as (_ & T & _).
    destruct (nextFault w); cbn; try reflexivity. rewrite T.
    set (rows := List.filter _ (table w)).
    assert (V : forall r, In r rows ->
                String.eqb (row_value r) (trim (orEmpty apiKey)) = true).
    { intros r I. now apply filter_In in I as [_ I]. }
    destruct rows as [|row [|row' rest]]; cbn; try reflexivity.
    rewrite (V row) by now left. reflexivity.
  - rewrite (connected_unconfigured w C).
    destruct (validateApiKeyPattern _); reflexivity.
Qed.

(** X11: a key that is missing, is no string, is empty or is made of white
    space only is answered 400 "Invalid API key format" before any client is
    built or any request is made; a body that is not JSON or is null is
    answered 400 "Invalid request format". *)
Theorem validate_rejects_blank_keys (apiKey : option string) (w : World) :
  trim (orEmpty apiKey) = "" ->
  ValidateRoute.POST (BodyWith apiKey) w = (Returned invalidFormat, w) /\
  ValidateRoute.POST BodyNotJson w = (Returned invalidRequest, w) /\
  ValidateRoute.POST BodyNull w = (Returned invalidRequest, w).
Proof.
  intros H. rewrite validate_run. apply trim_empty_falsy in H. rewrite H.
  repeat split.
Qed.

Lemma validate_rejects_blank_keys_witness :
  ValidateRoute.POST (BodyWith (Some "   ")) Samples.remoteOne =
    (Returned invalidFormat, Samples.remoteOne) /\
  ValidateRoute.POST (BodyWith None) Samples.bare =
    (Returned invalidFormat, Samples.bare).
Proof.
  split.
  - apply (validate_rejects_blank_keys (Some "   ") Samples.remoteOne). reflexivity.
  - apply (validate_rejects_blank_keys None Samples.bare). reflexivity.
Defined.

(** X12: with a client and a service that answers, the verdict on a key is
    read off the rows whose value is the key without the white space around
    it: 401 "Invalid API Key" when there is none, 200 with the name of the
    row when there is one, and 500 "Database error occurred" when several
    rows hold that value. The table and the data file are as they were. *)
Theorem validate_looks_the_key_up (apiKey : string) (w : World) :
  configured w = true -> nextFault w = NoFault -> trim apiKey <> "" ->
  exists w',
    ValidateRoute.POST (BodyWith (Some apiKey)) w =
      (Returned
         match List.filter (fun r => String.eqb (row_value r) (trim apiKey))
                 (table w) with
         | [] => invalid
         | [row] => valid (Some (row_name row))
         | _ => databaseError
         end, w') /\
    table w' = table w /\ dataFile w' = dataFile w.
Proof.
  intros C N T. rewrite validate_run, C, N.
  destruct (negb _ || _) eqn:B;
    [apply (trim_empty_falsy (Some apiKey)) in B; contradiction|].
  destruct (connected_frame w) as (F' & T' & _).
  eexists. split; [reflexivity|]. now split.
Qed.

Lemma validate_looks_the_key_up_witness :
  (exists w',
     ValidateRoute.POST (BodyWith (Some " prod_abc ")) Samples.remoteOne =
       (Returned (valid (Some "K1")), w')) /\
  (exists w',
     ValidateRoute.POST (BodyWith (Some "prod_abd")) Samples.remoteOne =
       (Returned invalid, w')).
Proof.
  split.
  - destruct (validate_looks_the_key_up " prod_abc " Samples.remoteOne)
      as (w' & R & _); [reflexivity | reflexivity | discriminate |].
    exists w'. exact R.
  - destruct (validate_looks_the_key_up "prod_abd" Samples.remoteOne)
      as (w' & R & _); [reflexivity | reflexivity | discriminate |].
    exists w'. exact R.
Defined.

(** X13: the white space around a key does not matter: a key and the same
    key without the white space around it get the same answer, in every
    world. *)
Theorem validate_ignores_surrounding_blanks (apiKey : string) (w : World) :
  ValidateRoute.POST (BodyWith (Some apiKey)) w =
  ValidateRoute.POST (BodyWith (Some (trim apiKey))) w.
Proof.
  rewrite !validate_run. simpl orEmpty. rewrite trim_idempotent.
  destruct (negb (truthy (Some apiKey)) ||
            Nat.eqb (String.length (trim apiKey)) 0) eqn:A.
  - apply (trim_empty_falsy (Some apiKey)) in A. simpl in A. rewrite A.
    reflexivity.
  - destruct (negb (truthy (Some (trim apiKey))) ||
              Nat.eqb (String.length (trim apiKey)) 0) eqn:B; [|reflexivity].
    exfalso.
    assert (E : trim (orEmpty (Some (trim apiKey))) = "").
    { apply trim_empty_falsy. simpl orEmpty. now rewrite trim_idempotent. }
    simpl in E. rewrite trim_idempotent in E.
    assert (A' : negb (truthy (Some apiKey)) ||
                 Nat.eqb (String.length (trim (orEmpty (Some apiKey)))) 0 = true)
      by (apply trim_empty_falsy; exact E).
    simpl in A'. congruence.
Qed.

(** *** The fallback pattern *)

(** The characters a key that passes the pattern can hold. *)
Lemma within_repeated (alphabet : ascii -> bool) (n : nat) (r : regex) :
  within alphabet r -> within alphabet (repeated n r).
Proof. intros W. induction n as [|n IH]; simpl; auto. Qed.

Ltac class_cases :=
  let c := fresh "c" in
  intros c; destruct c as [[] [] [] [] [] [] [] []]; vm_compute;
  first [reflexivity | discriminate | (intros H'; first [reflexivity | discriminate H'])].

Lemma patterns_within :
  within (oneOf [wordOrDash; exactly "."]) uuidPattern /\
  within (oneOf [wordOrDash; exactly "."]) apiKeyPattern /\
  within (oneOf [wordOrDash; exactly "."]) jwtPattern /\
  within (oneOf [wordOrDash; exactly "."]) (oneOrMore (Class wordOrDash)).
Proof.
  assert (H : forall c, ignoreCase hexDigit c = true ->
                        oneOf [wordOrDash; exactly "."] c = true) by class_cases.
  assert (D : forall c, ignoreCase (exactly "-") c = true ->
                        oneOf [wordOrDash; exactly "."] c = true) by class_cases.
  assert (A : forall c, alphanumeric c = true ->
                        oneOf [wordOrDash; exactly "."] c = true) by class_cases.
  assert (W : forall c, wordOrDash c = true ->
                        oneOf [wordOrDash; exactly "."] c = true) by class_cases.
  split; [|split; [|split]].
  - unfold uuidPattern, sequence. cbn [fold_right within].
    repeat split; try (apply within_repeated; exact H); try exact D; class_cases.
  - unfold apiKeyPattern, sequence, atLeast. cbn [fold_right within].
    repeat split; try (apply within_repeated; exact A); try exact A; class_cases.
  - unfold jwtPattern, sequence, oneOrMore. cbn [fold_right within].
    repeat split; try exact W; class_cases.
  - unfold oneOrMore. cbn [within]. split; exact W.
Qed.

(** X14: the fallback accepts keys of letters, digits, hyphens, underscores
    and dots only: a key [validateApiKeyPattern] accepts is not empty and
    holds no other character, white space in particular. *)
Theorem fallback_accepts_key_characters_only (apiKey : string) :
  validateApiKeyPattern apiKey = true ->
  apiKey <> "" /\ allOf (oneOf [wordOrDash; exactly "."]) apiKey = true.
Proof.
  intros H. split; [intros ->; discriminate H|].
  destruct patterns_within as (U & K & J & W).
  unfold validateApiKeyPattern in H.
  repeat (apply orb_true_iff in H as [H|H]).
  - apply test_Matches in H. now apply (Matches_within _ _ _ U).
  - apply test_Matches in H. now apply (Matches_within _ _ _ K).
  - apply test_Matches in H. now apply (Matches_within _ _ _ J).
  - apply andb_true_iff in H as [_ H].
    apply test_Matches in H. now apply (Matches_within _ _ _ W).
Qed.

Lemma fallback_accepts_key_characters_only_witness :
  allOf (oneOf [wordOrDash; exactly "."]) "123e4567-e89b-12d3-a456-426614174000" = true.
Proof.
  apply (fallback_accepts_key_characters_only "123e4567-e89b-12d3-a456-426614174000").
  vm_compute. reflexivity.
Defined.

Lemma test_plus_class (p : ascii -> bool) (s : string) :
  s <> "" -> allOf p s = true -> test (oneOrMore (Class p)) s = true.
Proof.
  intros N H. apply test_Matches. destruct s as [|c s]; [congruence|].
  simpl in H. apply andb_true_iff in H as [Hc Hs].
  change (String c s) with (String c "" +:+ s). unfold oneOrMore.
  constructor; [now constructor | now apply Matches_Star_allOf].
Qed.

(** X15: every key of at least twenty letters, digits, hyphens and
    underscores passes the fallback. *)
Theorem fallback_accepts_long_keys (apiKey : string) :
  20 <= String.length apiKey -> allOf wordOrDash apiKey = true ->
  validateApiKeyPattern apiKey = true.
Proof.
  intros L H. unfold validateApiKeyPattern.
  assert (N : apiKey <> "") by (intros ->; simpl in L; lia).
  rewrite (test_plus_class wordOrDash apiKey N H).
  apply Nat.leb_le in L. rewrite L. now rewrite !orb_true_r.
Qed.

Lemma fallback_accepts_long_keys_witness :
  validateApiKeyPattern "prod_0123456789abcdef" = true.
Proof.
  apply (fallback_accepts_long_keys "prod_0123456789abcdef");
    [simpl; lia | reflexivity].
Defined.

Lemma allOf_implies (p q : ascii -> bool) (s : string) :
  (forall c, p c = true -> q c = true) -> allOf p s = true -> allOf q s = true.
Proof.
  intros I. induction s as [|c s IH]; simpl; [reflexivity|].
  intros H. apply andb_true_iff in H as [Hc Hs]. now rewrite (I c Hc), IH.
Qed.

(** X16: the keys the file store seeds pass the validation of a server
    without a client. [crypto.randomBytes(18).toString("hex")] gives 36
    hexadecimal digits; when the three draws of the random source are such
    strings, the value of every seed is answered 200 "Valid API Key". *)
Theorem seeded_keys_validate_without_client (w w0 : World) (k : ApiKey) :
  (forall i, i < 3 ->
     String.length (nextHex w i) = 36 /\ allOf hexDigit (nextHex w i) = true) ->
  In k (seedsOf w) -> configured w0 = false ->
  ValidateRoute.POST (BodyWith (Some (key_value k))) w0 =
    (Returned (valid None), w0).
Proof.
  intros Hex I C.
  assert (Wd : forall c, hexDigit c = true -> wordOrDash c = true) by class_cases.
  assert (Sp : forall c, wordOrDash c = true -> negb (isWhiteSpace c) = true)
    by class_cases.
  assert (V : exists prefix i, i < 3 /\ key_value k = prefix +:+ nextHex w i /\
                allOf wordOrDash prefix = true /\ 4 <= String.length prefix).
  { rewrite seedsOf_eq in I. destruct I as [<-|[<-|[<-|[]]]]; simpl key_value.
    - exists "prod_", 0. repeat split; simpl; lia.
    - exists "stg_", 1. repeat split; simpl; lia.
    - exists "dev_", 2. repeat split; simpl; lia. }
  destruct V as (prefix & i & Li & -> & Hp & Lp).
  destruct (Hex i Li) as [L36 Hh].
  assert (A : allOf wordOrDash (prefix +:+ nextHex w i) = true).
  { rewrite allOf_append, Hp. simpl. now apply (allOf_implies hexDigit). }
  assert (T : trim (prefix +:+ nextHex w i) = prefix +:+ nextHex w i).
  { apply trim_nothing.
    now apply (allOf_implies wordOrDash (fun c => negb (isWhiteSpace c))). }
  assert (L : 20 <= String.length (prefix +:+ nextHex w i))
    by (rewrite length_append; lia).
  rewrite validate_run, C.
  destruct (negb _ || _) eqn:B.
  - apply (trim_empty_falsy (Some (prefix +:+ nextHex w i))) in B.
    simpl in B. rewrite T in B. rewrite B in L. simpl in L. lia.
  - simpl orEmpty. rewrite T. unfold validateApiKeyPattern.
    assert (N : prefix +:+ nextHex w i <> "") by (intros E; rewrite E in L; simpl in L; lia).
    rewrite (test_plus_class wordOrDash _ N A).
    apply Nat.leb_le in L. rewrite L. now rewrite !orb_true_r.
Qed.

Lemma seeded_keys_validate_without_client_witness :
  exists k1 k2 k3,
    seedsOf MoreSamples.hexSources = [k1; k2; k3] /\
    ValidateRoute.POST (BodyWith (Some (key_value k2))) Samples.bare =
      (Returned (valid None), Samples.bare).
Proof.
  eexists _, _, _. split; [reflexivity|].
  apply (seeded_keys_validate_without_client MoreSamples.hexSources Samples.bare).
  - intros i L. destruct i as [|[|[|i]]]; [| | |lia]; split; vm_compute; reflexivity.
  - vm_compute. right. left. reflexivity.
  - reflexivity.
Defined.

(** *** Create, then validate *)

Lemma filter_value_app_fresh (value : string) (rows : list Row) (row : Row) :
  existsb (fun r => String.eqb (row_value r) value) rows = false ->
  List.filter (fun r => String.eqb (row_value r) value) (rows ++ [row]) =
    if String.eqb (row_value row) value then [row] else [].
Proof.
  intros Fresh. rewrite List.filter_app. simpl.
  assert (E : List.filter (fun r => String.eqb (row_value r) value) rows = []).
  { induction rows as [|r rows IH]; simpl in *; [reflexivity|].
    destruct (String.eqb (row_value r) value); simpl in *;
      [discriminate | now apply IH]. }
  rewrite E. now destruct (String.eqb (row_value row) value).
Qed.

(** X17: a key created through POST validates. With a client, a service
    that takes both requests, an id new to the table, and a value that has
    no white space around it and that no row holds yet: POST answers 201, and
    the validation of the value then answers 200 with the name given. *)
Theorem created_key_validates (name value : string) (w : World) :
  configured w = true -> name <> "" -> value <> "" ->
  faultAfter w 0 = NoFault -> faultAfter w 1 = NoFault ->
  hasRow (default_id (nextDefaults w)) w = false ->
  trim value = value ->
  existsb (fun r => String.eqb (row_value r) value) (table w) = false ->
  exists R w' w'',
    Keys.POST (JsonObject (Some name) (Some value)) w =
      (Returned (mkResponse (Key R) 201), w') /\
    ValidateRoute.POST (BodyWith (Some value)) w' =
      (Returned (valid (Some name)), w'').
Proof.
  intros C Hn Hv N0 N1 Fresh T Unique.
  destruct (POST_with_client name value w Hn Hv C N0 Fresh)
    as (w' & R & Tb & _ & C' & N').
  eexists _, w', _. split; [exact R|].
  rewrite validate_run, C'.
  destruct (negb _ || _) eqn:B.
  { apply (trim_empty_falsy (Some value)) in B. simpl in B. congruence. }
  simpl orEmpty. rewrite T.
  change (nextFault w') with (faultAfter w' 0). rewrite N', N1.
  rewrite Tb, (filter_value_app_fresh _ _ _ Unique). simpl.
  rewrite String.eqb_refl. reflexivity.
Qed.

Lemma created_key_validates_witness :
  exists R w' w'',
    Keys.POST (JsonObject (Some "K2") (Some "dev_k2")) Samples.remoteOne =
      (Returned (mkResponse (Key R) 201), w') /\
    ValidateRoute.POST (BodyWith (Some "dev_k2")) w' =
      (Returned (valid (Some "K2")), w'').
Proof.
  apply (created_key_validates "K2" "dev_k2" Samples.remoteOne);
    solve [reflexivity | discriminate].
Defined.

(** X18: a key created with white space around its value cannot be
    validated. POST stores the value as it is given, the validation looks
    for the value without the white space around it: with a client, a
    service that takes both requests and an id new to the table, when no row
    holds the trimmed value the validation of the value POST has just stored
    answers 401 "Invalid API Key", or 400 "Invalid API key format" when the
    value is white space only. *)
Theorem key_with_blanks_does_not_validate (name value : string) (w : World) :
  configured w = true -> name <> "" -> value <> "" ->
  faultAfter w 0 = NoFault -> faultAfter w 1 = NoFault ->
  hasRow (default_id (nextDefaults w)) w = false ->
  trim value <> value ->
  existsb (fun r => String.eqb (row_value r) (trim value)) (table w) = false ->
  exists R w' w'',
    Keys.POST (JsonObject (Some name) (Some value)) w =
      (Returned (mkResponse (Key R) 201), w') /\
    key_value R = value /\
    ValidateRoute.POST (BodyWith (Some value)) w' =
      (Returned (if String.eqb (trim value) "" then invalidFormat else invalid), w'').
Proof.
  intros C Hn Hv N0 N1 Fresh T Unique.
  destruct (POST_with_client name value w Hn Hv C N0 Fresh)
    as (w' & R & Tb & _ & C' & N').
  assert (V : exists w'',
            ValidateRoute.POST (BodyWith (Some value)) w' =
              (Returned (if String.eqb (trim value) "" then invalidFormat
                         else invalid), w'')).
  { rewrite validate_run, C'. simpl orEmpty.
    destruct (negb _ || _) eqn:B.
    - apply (trim_empty_falsy (Some value)) in B. simpl in B. rewrite B.
      now exists w'.
    - assert (E : String.eqb (trim value) "" = false).
      { apply String.eqb_neq. intros E.
        assert (X : negb (truthy (Some value)) ||
                    Nat.eqb (String.length (trim (orEmpty (Some value)))) 0 = true)
          by (apply trim_empty_falsy; exact E).
        simpl in X. congruence. }
      rewrite E.
      change (nextFault w') with (faultAfter w' 0). rewrite N', N1.
      rewrite Tb, (filter_value_app_fresh _ _ _ Unique). simpl.
      assert (D : String.eqb value (trim value) = false)
        by (apply String.eqb_neq; congruence).
      rewrite D. eexists. reflexivity. }
  destruct V as (w'' & V).
  eexists _, w', w''. split; [exact R|]. split; [reflexivity | exact V].
Qed.

Lemma key_with_blanks_does_not_validate_witness :
  exists R w' w'',
    Keys.POST (JsonObject (Some "K2") (Some "dev_k2 ")) Samples.remoteOne =
      (Returned (mkResponse (Key R) 201), w') /\
    key_value R = "dev_k2 " /\
    ValidateRoute.POST (BodyWith (Some "dev_k2 ")) w' = (Returned invalid, w'').
Proof.
  apply (key_with_blanks_does_not_validate "K2" "dev_k2 " Samples.remoteOne);
    solve [reflexivity | discriminate].
Defined.

(** X19: an error of the service does not show in the verdict. With a
    client and a key that is not blank, when the query builder resolves with
    an error (as it does for a request that could not be sent) the answer is
    500 "Database error occurred", without the message of the error; the
    table and the data file are as they were. *)
Theorem validate_with_a_failing_service
    (apiKey message : string) (w : World) :
  configured w = true -> trim apiKey <> "" ->
  nextFault w = QueryError message ->
  exists w',
    ValidateRoute.POST (BodyWith (Some apiKey)) w = (Returned databaseError, w') /\
    table w' = table w /\ dataFile w' = dataFile w.
Proof.
  intros C T N. rewrite validate_run, C, N.
  destruct (negb _ || _) eqn:B;
    [apply (trim_empty_falsy (Some apiKey)) in B; contradiction|].
  destruct (connected_frame w) as (F' & T' & _).
  eexists; (split; [reflexivity|]); now split.
Qed.

Lemma validate_with_a_failing_service_witness :
  exists w',
    ValidateRoute.POST (BodyWith (Some "prod_abc"))
      (MoreSamples.failing (QueryError "TypeError: fetch failed")) =
      (Returned databaseError, w').
Proof.
  destruct (validate_with_a_failing_service "prod_abc" "TypeError: fetch failed"
              (MoreSamples.failing (QueryError "TypeError: fetch failed")))
    as (w' & R & _); [reflexivity | discriminate | reflexivity |].
  now exists w'.
Defined.

(** ** The dashboard *)

Import Dashboard.

Lemma fetchChecked_run (route : Async Response) (failed : string) (w : World)
    (res : Response) (w' : World) :
  route w = (Returned res, w') ->
  fetchChecked route failed w =
    if ok res then (Returned res, w')
    else (Thrown (messageOr (body res) failed), w').
Proof.
  intros R. unfold fetchChecked, bind. rewrite R.
  destruct (ok res); reflexivity.
Qed.

Lemma truthyAt_toggle (o : gmap string bool) (id id' : string) :
  truthyAt (<[id := negb (truthyAt o id)]> o) id' =
    if String.eqb id' id then negb (truthyAt o id) else truthyAt o id'.
Proof.
  unfold truthyAt at 1. destruct (String.eqb_spec id' id) as [->|N].
  - now rewrite lookup_insert_eq.
  - rewrite lookup_insert_ne by congruence. reflexivity.
Qed.

(** X20: what the table shows of a key. A key is shown masked until it is
    revealed: in the initial state the table shows [maskValue] of the value
    (for an id that is no member of [Object.prototype]); [toggleReveal] of
    the id of a key turns the value shown from the mask to the value or
    back, and leaves what is shown of every key of another id; two toggles
    of an id leave what is shown of every key. *)
Theorem reveal_toggles_one_key (id : string) (s : HookState) (key : ApiKey) :
  shownValue (revealedIds (toggleReveal id (toggleReveal id s))) key =
    shownValue (revealedIds s) key /\
  (key_id key <> id ->
   shownValue (revealedIds (toggleReveal id s)) key =
     shownValue (revealedIds s) key) /\
  (key_id key = id ->
   shownValue (revealedIds (toggleReveal id s)) key =
     if truthyAt (revealedIds s) id then maskValue (key_value key)
     else key_value key) /\
  (existsb (String.eqb (key_id key)) objectPrototypeMembers = false ->
   shownValue (revealedIds initialState) key = maskValue (key_value key) /\
   shownValue (revealedIds (toggleReveal (key_id key) initialState)) key =
     key_value key).
Proof.
  unfold shownValue, toggleReveal. simpl revealedIds.
  rewrite !truthyAt_toggle.
  split; [|split; [|split]].
  - rewrite String.eqb_refl.
    destruct (String.eqb (key_id key) id) eqn:E; [|reflexivity].
    apply String.eqb_eq in E. rewrite E, negb_involutive. reflexivity.
  - intros N. apply String.eqb_neq in N. now rewrite N.
  - intros ->. rewrite String.eqb_refl. now destruct (truthyAt _ _).
  - intros P. rewrite String.eqb_refl. unfold truthyAt.
    rewrite lookup_empty, P. split; reflexivity.
Qed.

Lemma reveal_toggles_one_key_witness :
  shownValue (revealedIds initialState) Samples.oneKey =
    "prod-******************************" /\
  shownValue (revealedIds (toggleReveal "k1" initialState)) Samples.oneKey =
    "prod_abc".
Proof.
  destruct (reveal_toggles_one_key "k1" initialState Samples.oneKey)
    as (_ & _ & _ & H).
  destruct (H eq_refl) as [M V]. split; [exact M | exact V].
Defined.

Lemma refresh_run (s : HookState) (w : World) :
  exists w',
    refresh s w =
      (setLoading false
         (setApiKeys
            (KeyList (if configured w then
                        match nextFault w with
                        | NoFault => List.map toApiKey (order_updated_at_desc (table w))
                        | _ => Keys.mockApiKeys
                        end
                      else Keys.mockApiKeys))
            (setError "" (setLoading true s))), w') /\
    dataFile w' = dataFile w /\ table w' = table w.
Proof.
  destruct (GET_keys_run w) as (keys & w' & R & F & T & K).
  unfold refresh. rewrite (fetchChecked_run _ _ _ _ _ R).
  match goal with |- context [ok ?r] => change (ok r) with true end.
  cbv iota. exists w'. rewrite K. now split.
Qed.

(** X21: without a client a create looks like a success and lists nothing
    new. In create mode, with a name and a value that are not empty,
    [handleSubmit] ends with the toast "API key created", no error, the form
    reset and closed, and the list it has fetched again is the three mock
    records; the data file and the table are as they were. *)
Theorem submit_without_client_toasts_success (s : HookState) (w : World) :
  configured w = false -> truthy (editingId s) = false ->
  form_name (form s) <> "" -> form_value (form s) <> "" ->
  exists s' w',
    handleSubmit s w = (s', w') /\
    toastMessage s' = "API key created" /\ toastType s' = "success" /\
    error s' = "" /\ loading s' = false /\
    listed s' = Keys.mockApiKeys /\
    form s' = mkForm "" "" /\ showForm s' = false /\ editingId s' = None /\
    dataFile w' = dataFile w /\ table w' = table w.
Proof.
  intros C E Hn Hv.
  destruct (POST_without_client _ _ w Hn Hv C) as (w1 & P & F1 & T1 & _ & C1).
  unfold handleSubmit. rewrite E. unfold bodyOf.
  rewrite (fetchChecked_run _ _ _ _ _ P).
  match goal with |- context [ok ?r] => change (ok r) with true end.
  cbv iota. cbv zeta.
  match goal with |- context [refresh ?x w1] =>
    destruct (refresh_run x w1) as (w2 & R & F2 & T2)
  end.
  rewrite R, C1. simpl negb. cbv iota.
  eexists _, w2. split; [reflexivity|]. simpl.
  repeat split; congruence.
Qed.

Lemma submit_without_client_toasts_success_witness :
  exists s' w',
    handleSubmit (setForm (mkForm "K1" "prod_abc") initialState) Samples.bare =
      (s', w') /\
    toastMessage s' = "API key created" /\ listed s' = Keys.mockApiKeys.
Proof.
  destruct (submit_without_client_toasts_success
              (setForm (mkForm "K1" "prod_abc") initialState) Samples.bare)
    as (s' & w' & R & T & _ & _ & _ & L & _);
    [reflexivity | reflexivity | discriminate | discriminate |].
  exists s', w'. repeat split; assumption.
Defined.



Lemma In_place (r x : Row) (sorted : list Row) :
  In x (place r sorted) <-> x = r \/ In x sorted.
Proof.
  induction sorted as [|y sorted IH]; simpl; [intuition congruence|].
  destruct (before y r); simpl; [rewrite IH|]; intuition congruence.
Qed.

Lemma In_order_updated_at_desc (x : Row) (rows : list Row) :
  In x (order_updated_at_desc rows) <-> In x rows.
Proof.
  unfold order_updated_at_desc.
  assert (G : forall acc, In x (fold_left (fun sorted r => place r sorted) rows acc)
                          <-> In x rows \/ In x acc).
  { induction rows as [|r rows IH]; intros acc; simpl; [tauto|].
    rewrite IH, In_place. intuition congruence. }
  rewrite G. simpl. tauto.
Qed.

(** X23: with a client a created key is listed. In create mode, with a name
    and a value that are not empty, a service that takes the insert and the
    select that follows, and an id new to the table, [handleSubmit] ends with
    the toast "API key created", no error and the form reset, and the list
    holds a key of the name and value given; every key of a row the table
    held before is listed too. *)
Theorem submit_with_client_lists_the_key (s : HookState) (w : World) :
  configured w = true -> truthy (editingId s) = false ->
  form_name (form s) <> "" -> form_value (form s) <> "" ->
  faultAfter w 0 = NoFault -> faultAfter w 1 = NoFault ->
  hasRow (default_id (nextDefaults w)) w = false ->
  exists s' w' key,
    handleSubmit s w = (s', w') /\
    toastMessage s' = "API key created" /\ error s' = "" /\
    form s' = mkForm "" "" /\
    In key (listed s') /\
    key_name key = form_name (form s) /\ key_value key = form_value (form s) /\
    (forall row, In row (table w) -> In (toApiKey row) (listed s')).
Proof.
  intros C E Hn Hv N0 N1 Fresh.
  destruct (POST_with_client _ _ w Hn Hv C N0 Fresh) as (w1 & P & T1 & _ & C1 & N').
  unfold handleSubmit. rewrite E. unfold bodyOf.
  rewrite (fetchChecked_run _ _ _ _ _ P).
  match goal with |- context [ok ?r] => change (ok r) with true end.
  cbv iota. cbv zeta.
  match goal with |- context [refresh ?x w1] =>
    destruct (refresh_run x w1) as (w2 & R & _)
  end.
  rewrite R, C1. change (nextFault w1) with (faultAfter w1 0). rewrite N', N1.
  simpl negb. cbv iota.
  eexists _, w2, (toApiKey (insertedRow _ _ w)). split; [reflexivity|].
  simpl. do 3 (split; [reflexivity|]).
  split; [|split; [reflexivity|split; [reflexivity|]]].
  - apply in_map, In_order_updated_at_desc. rewrite T1.
    apply in_or_app. right. now left.
  - intros row I. apply in_map, In_order_updated_at_desc. rewrite T1.
    apply in_or_app. now left.
Qed.

Lemma submit_with_client_lists_the_key_witness :
  exists s' w' key,
    handleSubmit (setForm (mkForm "K2" "dev_k2") initialState)
      Samples.remoteOne = (s', w') /\
    In key (listed s') /\ key_name key = "K2" /\ key_value key = "dev_k2" /\
    In (toApiKey Samples.oneRow) (listed s').
Proof.
  destruct (submit_with_client_lists_the_key
              (setForm (mkForm "K2" "dev_k2") initialState) Samples.remoteOne)
    as (s' & w' & key & R & _ & _ & _ & I & N & V & O);
    [reflexivity | reflexivity | discriminate | discriminate
    | reflexivity | reflexivity | reflexivity |].
  exists s', w', key. repeat split; try assumption.
  apply O. now left.
Defined.



(** X25: an empty form is refused. In create mode, when the name or the
    value of the form is empty, [handleSubmit] ends with the error "'name'
    and 'value' are required"; the form, the list and the toast are as they
    were and the world has not changed. *)
Theorem submit_of_an_empty_form (s : HookState) (w : World) :
  truthy (editingId s) = false ->
  form_name (form s) = "" \/ form_value (form s) = "" ->
  handleSubmit s w =
    (setError "'name' and 'value' are required" (setError "" s), w).
Proof.
  intros E H. unfold handleSubmit. rewrite E. unfold bodyOf.
  assert (P : Keys.POST (JsonObject (Some (form_name (form s)))
                           (Some (form_value (form s)))) w =
              (Returned (mkResponse (Message "'name' and 'value' are required") 400), w)).
  { apply POST_invalid. destruct H as [-> | ->]; [left | right]; reflexivity. }
  rewrite (fetchChecked_run _ _ _ _ _ P). reflexivity.
Qed.

Lemma submit_of_an_empty_form_witness :
  error (fst (handleSubmit (setForm (mkForm "" "v") initialState) Samples.remoteOne)) =
    "'name' and 'value' are required" /\
  snd (handleSubmit (setForm (mkForm "" "v") initialState) Samples.remoteOne) =
    Samples.remoteOne.
Proof.
  rewrite (submit_of_an_empty_form (setForm (mkForm "" "v") initialState)
             Samples.remoteOne eq_refl (or_introl eq_refl)).
  split; reflexivity.
Defined.


